(** * gh-pipeline-agents: task dispatch and output reconciliation

    A shallow embedding of the three generated agents of the repository
    (error analyzer, error collector, error remediator):

    - the Python values that travel in messages and model responses;
    - exceptions, and a small trace-and-exception monad for the calls the
      agents make to their collaborators (json, jinja2, dacp, the model
      endpoint);
    - the pydantic output models and the [parse_*_output] functions;
    - the task functions, the agents' attribute tables and
      [handle_message];
    - the reconciliation engine, which the repository imports from the
      dacp package. *)

From Stdlib Require Import ZArith Ascii String List Bool Lia.
From stdpp Require Import base option list strings gmap pretty.

Set Warnings "-register-all".

Open Scope string_scope.
Open Scope Z_scope.

(** ** Python values *)

Module Py.

(** The values that occur in messages, in JSON documents and as results of
    the agents.  A dict that is a JSON object or a record keeps its items
    in insertion order.  [PModel cls data] is an instance of the pydantic
    class named [cls], given by the items [model_dump] returns for it.  A
    float is kept as its literal. *)
Inductive pyval : Type :=
| PNone
| PBool (b : bool)
| PInt (n : Z)
| PFloat (literal : string)
| PStr (s : string)
| PList (items : list pyval)
| PDict (items : list (string * pyval))
| PModel (cls : string) (data : list (string * pyval)).

(** [type(v).__name__]. *)
Definition type_name (v : pyval) : string :=
  match v with
  | PNone => "NoneType"
  | PBool _ => "bool"
  | PInt _ => "int"
  | PFloat _ => "float"
  | PStr _ => "str"
  | PList _ => "list"
  | PDict _ => "dict"
  | PModel cls _ => cls
  end.

(** Truth value of an object, as [if not task:] tests it. *)
Definition truthy (v : pyval) : bool :=
  match v with
  | PNone => false
  | PBool b => b
  | PInt n => negb (n =? 0)
  | PFloat lit => negb (existsb (String.eqb lit) ["0.0"; "-0.0"])
  | PStr s => negb (String.eqb s "")
  | PList items => match items with [] => false | _ => true end
  | PDict items => match items with [] => false | _ => true end
  | PModel _ _ => true
  end.

(** [isinstance(v, str)]. *)
Definition is_str (v : pyval) : bool :=
  match v with PStr _ => true | _ => false end.

(** [isinstance(v, dict)]. *)
Definition is_dict (v : pyval) : bool :=
  match v with PDict _ => true | _ => false end.

(** First binding of a key in an item list. *)
Fixpoint assoc {A : Type} (k : string) (items : list (string * A)) : option A :=
  match items with
  | [] => None
  | (k', v) :: rest => if String.eqb k k' then Some v else assoc k rest
  end.

(** The key is in the dict: ['error' in d]. *)
Definition has_key (k : string) (v : pyval) : bool :=
  match v with
  | PDict items => match assoc k items with Some _ => true | None => false end
  | _ => false
  end.

(** *** [str.replace] *)

(** [s.startswith(p)]. *)
Fixpoint startswith (p s : string) : bool :=
  match p, s with
  | EmptyString, _ => true
  | String a p', String b s' => if Ascii.eqb a b then startswith p' s' else false
  | String _ _, EmptyString => false
  end.

(** Scan for [str.replace] with a non-empty [old]: [skip] counts the
    characters of a matched occurrence still to be dropped. *)
Fixpoint replace_scan (old new s : string) (skip : nat) : string :=
  match s with
  | EmptyString => EmptyString
  | String c s' =>
      match skip with
      | S k => replace_scan old new s' k
      | O =>
          if startswith old s
          then new ++ replace_scan old new s' (Nat.pred (String.length old))
          else String c (replace_scan old new s' O)
      end
  end.

(** With an empty [old], [new] goes before every character and at the end. *)
Fixpoint replace_empty (new s : string) : string :=
  match s with
  | EmptyString => new
  | String c s' => new ++ String c (replace_empty new s')
  end.

(** [s.replace(old, new)]: every non-overlapping occurrence, left to right.
    Strings are UTF-8 byte strings here; for ASCII [old] the occurrences are
    the same as over code points. *)
Definition replace (s old new : string) : string :=
  match old with
  | EmptyString => replace_empty new s
  | _ => replace_scan old new s O
  end.

End Py.
Export Py.

(** ** Exceptions, outcomes and the call monad *)

Module Eff.

(** An exception object: the names of the classes of its class's method
    resolution order, and [str(e)]. *)
Record exn : Type := Exn { exn_mro : list string; exn_msg : string }.

(** [isinstance(e, cls)], which is what an [except cls] clause tests. *)
Definition isinstance_exn (e : exn) (cls : string) : bool :=
  existsb (String.eqb cls) (exn_mro e).

Definition TypeError (msg : string) : exn :=
  Exn ["TypeError"; "Exception"; "BaseException"; "object"] msg.
Definition ValueError (msg : string) : exn :=
  Exn ["ValueError"; "Exception"; "BaseException"; "object"] msg.
Definition AttributeError (msg : string) : exn :=
  Exn ["AttributeError"; "Exception"; "BaseException"; "object"] msg.
Definition JSONDecodeError (msg : string) : exn :=
  Exn ["JSONDecodeError"; "ValueError"; "Exception"; "BaseException"; "object"] msg.
Definition FileNotFoundError (msg : string) : exn :=
  Exn ["FileNotFoundError"; "OSError"; "Exception"; "BaseException"; "object"] msg.
Definition KeyboardInterrupt : exn :=
  Exn ["KeyboardInterrupt"; "BaseException"; "object"] "".

(** A call returns a value or raises. *)
Inductive outcome (A : Type) : Type :=
| Ok (a : A)
| Raise (e : exn).
Arguments Ok {A} a.
Arguments Raise {A} e.

(** What a run leaves behind: [Enter f args] when the body of the method
    [f] starts with its parameters bound to [args], [Ext f args] for a call
    to a collaborator outside the repository. *)
Inductive event : Type :=
| Enter (callee : string) (args : gmap string pyval)
| Ext (callee : string) (args : list pyval).

Definition trace : Type := list event.

(** Computations: the trace so far in, an outcome and the trace out. *)
Definition M (A : Type) : Type := trace -> outcome A * trace.

Definition ret {A : Type} (a : A) : M A := fun tr => (Ok a, tr).

Definition raise {A : Type} (e : exn) : M A := fun tr => (Raise e, tr).

Definition bind {A B : Type} (c : M A) (k : A -> M B) : M B :=
  fun tr =>
    match c tr with
    | (Ok a, tr') => k a tr'
    | (Raise e, tr') => (Raise e, tr')
    end.

Definition emit (ev : event) : M unit := fun tr => (Ok tt, (tr ++ [ev])%list).

(** A call to a collaborator: it is recorded, then its outcome is taken. *)
Definition ext {A : Type} (callee : string) (args : list pyval) (o : outcome A) : M A :=
  fun tr => (o, (tr ++ [Ext callee args])%list).

(** [try: c except cls as e: h e]. *)
Definition try_except {A : Type} (c : M A) (cls : string) (h : exn -> M A) : M A :=
  fun tr =>
    match c tr with
    | (Ok a, tr') => (Ok a, tr')
    | (Raise e, tr') => if isinstance_exn e cls then h e tr' else (Raise e, tr')
    end.

End Eff.
Export Eff.

Declare Scope py_scope.
Delimit Scope py_scope with py.
Notation "x <- c ;; k" := (bind c (fun x => k))
  (at level 100, c at next level, right associativity) : py_scope.
Notation "c ;;; k" := (bind c (fun _ => k))
  (at level 100, right associativity) : py_scope.
Open Scope py_scope.

(** ** Callables and attribute lookup *)

Module Obj.

(** An attribute of an agent object: a bound method with the parameters it
    declares after [self] (each with its default, if it has one), or a
    value that is not callable. *)
Inductive attr : Type :=
| AMethod (qualname : string) (params : list (string * option pyval))
    (body : gmap string pyval -> M pyval)
| AData (v : pyval).

(** An object, as [getattr] sees it: its attributes in resolution order
    (instance attributes, then the class's, then the base classes'). *)
Definition object : Type := list (string * attr).

Definition getattr (self : object) (name : string) : option attr := assoc name self.

Definition hasattr (self : object) (name : string) : bool :=
  match getattr self name with Some _ => true | None => false end.

(** The keyword arguments that name no declared parameter. *)
Definition unexpected (params : list (string * option pyval))
    (kwargs : gmap string pyval) : list string :=
  List.filter (fun k => negb (existsb (String.eqb k) (List.map fst params)))
    (List.map fst (map_to_list kwargs)).

(** The declared parameters without a default that no keyword argument
    supplies. *)
Definition missing (params : list (string * option pyval))
    (kwargs : gmap string pyval) : list string :=
  List.map fst
    (List.filter (fun p => match snd p, kwargs !! fst p with
                           | None, None => true
                           | _, _ => false
                           end) params).

(** The parameters left to their defaults. *)
Definition defaulted (params : list (string * option pyval))
    (kwargs : gmap string pyval) : gmap string pyval :=
  list_to_map
    (omap (fun p => match snd p, kwargs !! fst p with
                    | Some d, None => Some (fst p, d)
                    | _, _ => None
                    end) params).

(** The names of missing parameters as the interpreter lists them:
    ['a'], ['a' and 'b'], ['a', 'b', and 'c']. *)
Fixpoint listed_many (names : list string) : string :=
  match names with
  | [] => ""
  | [z] => "and '" ++ z ++ "'"
  | a :: rest => "'" ++ a ++ "', " ++ listed_many rest
  end.

Definition listed (names : list string) : string :=
  match names with
  | [a] => "'" ++ a ++ "'"
  | [a; b] => "'" ++ a ++ "' and '" ++ b ++ "'"
  | _ => listed_many names
  end.

(** Binding of the keyword arguments of a call [f(k1=v1, ...)] to the
    parameters of [f]: the interpreter raises TypeError, before the body runs, for an
    unexpected keyword and for a missing parameter.  The messages name the
    callable and the offending names, as the interpreter's do.  Of several
    unexpected keywords the interpreter names the first in the order of
    the call, which a map does not keep: here it is the first key of the
    map. *)
Definition bind_arguments (qualname : string) (params : list (string * option pyval))
    (kwargs : gmap string pyval) : string + gmap string pyval :=
  match unexpected params kwargs with
  | k :: _ => inl (qualname ++ "() got an unexpected keyword argument '" ++ k ++ "'")
  | [] =>
      match missing params kwargs with
      | p :: ps =>
          let count := List.length (p :: ps) in
          inl (qualname ++ "() missing " ++ pretty count ++ " required positional argument"
                 ++ (if Nat.eqb count 1 then "" else "s") ++ ": " ++ listed (p :: ps))
      | [] => inr (kwargs ∪ defaulted params kwargs)
      end
  end.

(** The call of [a] with the items of [kwargs] as keyword arguments. *)
Definition call (a : attr) (kwargs : gmap string pyval) : M pyval :=
  match a with
  | AData v => raise (TypeError ("'" ++ type_name v ++ "' object is not callable"))
  | AMethod qualname params body =>
      match bind_arguments qualname params kwargs with
      | inl msg => raise (TypeError msg)
      | inr args => emit (Enter qualname args) ;;; body args
      end
  end.

End Obj.
Export Obj.

(** ** The pydantic output models *)

Module Models.

(** A class derived from [BaseModel]: its name and its fields in
    declaration order, each with whether it is [Optional[...] = None] and
    with its annotation. *)
Inductive model_class : Type :=
| BaseModel (name : string) (fields : list (string * (bool * field_type)))
with field_type : Type :=
| Str
| Int
| ListOf (elem : field_type)
| Nested (cls : model_class).

Definition cls_name (c : model_class) : string :=
  match c with BaseModel name _ => name end.

Definition cls_fields (c : model_class) : list (string * (bool * field_type)) :=
  match c with BaseModel _ fields => fields end.

(** [name: T] *)
Definition req (name : string) (t : field_type) : string * (bool * field_type) :=
  (name, (false, t)).
(** [name: Optional[T] = None] *)
Definition opt (name : string) (t : field_type) : string * (bool * field_type) :=
  (name, (true, t)).

(** [isinstance(v, cls)] for a model class. *)
Definition isinstance (v : pyval) (cls : model_class) : bool :=
  match v with
  | PModel c _ => String.eqb c (cls_name cls)
  | _ => false
  end.

(** [hasattr(v, 'model_dump')]: of the values here, model instances only. *)
Definition has_model_dump (v : pyval) : bool :=
  match v with PModel _ _ => true | _ => false end.

(** [v.model_dump()]. *)
Definition model_dump (v : pyval) : pyval :=
  match v with
  | PModel _ data => PDict data
  | _ => v
  end.

(** *** Analyzer *)

Definition Analyze_ErrorOutputAnalysis_Result : model_class :=
  BaseModel "Analyze_ErrorOutputAnalysis_Result"
    [ req "root_cause" Str;
      req "error_category" Str;
      req "confidence_level" Str;
      req "impact_assessment" Str ].

Definition Analyze_ErrorOutputRecommended_FixesItemCode_ChangesItem : model_class :=
  BaseModel "Analyze_ErrorOutputRecommended_FixesItemCode_ChangesItem"
    [ opt "file_path" Str;
      opt "suggested_change" Str;
      opt "change_type" Str ].

Definition Analyze_ErrorOutputRecommended_FixesItem : model_class :=
  BaseModel "Analyze_ErrorOutputRecommended_FixesItem"
    [ req "fix_title" Str;
      req "fix_description" Str;
      req "fix_type" Str;
      req "estimated_effort" Str;
      opt "code_changes"
        (ListOf (Nested Analyze_ErrorOutputRecommended_FixesItemCode_ChangesItem));
      opt "commands_to_run" (ListOf Str);
      opt "prerequisites" (ListOf Str) ].

Definition Analyze_ErrorOutputDeveloper_MessageRelated_DocumentationItem : model_class :=
  BaseModel "Analyze_ErrorOutputDeveloper_MessageRelated_DocumentationItem"
    [ opt "title" Str;
      opt "url" Str ].

Definition Analyze_ErrorOutputDeveloper_Message : model_class :=
  BaseModel "Analyze_ErrorOutputDeveloper_Message"
    [ req "summary" Str;
      req "detailed_explanation" Str;
      req "next_steps" (ListOf Str);
      opt "related_documentation"
        (ListOf (Nested Analyze_ErrorOutputDeveloper_MessageRelated_DocumentationItem));
      opt "prevention_tips" (ListOf Str) ].

Definition Analyze_ErrorOutput : model_class :=
  BaseModel "Analyze_ErrorOutput"
    [ req "analysis_result" (Nested Analyze_ErrorOutputAnalysis_Result);
      req "recommended_fixes" (ListOf (Nested Analyze_ErrorOutputRecommended_FixesItem));
      req "developer_message" (Nested Analyze_ErrorOutputDeveloper_Message);
      req "urgency_level" Str ].

Definition Generate_Pr_CommentOutputComment_Metadata : model_class :=
  BaseModel "Generate_Pr_CommentOutputComment_Metadata"
    [ req "comment_type" Str;
      req "tags" (ListOf Str);
      req "urgency" Str ].

Definition Generate_Pr_CommentOutput : model_class :=
  BaseModel "Generate_Pr_CommentOutput"
    [ req "pr_comment" Str;
      req "comment_metadata" (Nested Generate_Pr_CommentOutputComment_Metadata) ].

Definition Suggest_Workflow_ImprovementsOutputWorkflow_ImprovementsItem : model_class :=
  BaseModel "Suggest_Workflow_ImprovementsOutputWorkflow_ImprovementsItem"
    [ req "improvement_title" Str;
      req "improvement_description" Str;
      req "improvement_type" Str;
      req "implementation_difficulty" Str;
      req "expected_benefit" Str;
      opt "workflow_changes" Str ].

Definition Suggest_Workflow_ImprovementsOutput : model_class :=
  BaseModel "Suggest_Workflow_ImprovementsOutput"
    [ req "workflow_improvements"
        (ListOf (Nested Suggest_Workflow_ImprovementsOutputWorkflow_ImprovementsItem));
      req "prevention_strategies" (ListOf Str);
      req "monitoring_recommendations" (ListOf Str) ].

(** *** Collector *)

Definition Collect_ErrorsOutputError_Summary : model_class :=
  BaseModel "Collect_ErrorsOutputError_Summary"
    [ req "primary_error" Str;
      req "error_type" Str;
      req "severity" Str;
      opt "affected_files" (ListOf Str);
      opt "stack_trace" Str;
      opt "error_context" Str;
      opt "suggested_keywords" (ListOf Str) ].

Definition Collect_ErrorsOutputJob_Context : model_class :=
  BaseModel "Collect_ErrorsOutputJob_Context"
    [ req "job_name" Str;
      req "workflow_name" Str;
      req "repository" Str;
      opt "branch" Str;
      opt "commit_sha" Str;
      opt "pr_number" Int;
      opt "failed_step" Str ].

Definition Collect_ErrorsOutputLog_Statistics : model_class :=
  BaseModel "Collect_ErrorsOutputLog_Statistics"
    [ req "total_lines" Int;
      req "error_lines" Int;
      req "warning_lines" Int;
      opt "duration_estimate" Str ].

Definition Collect_ErrorsOutput : model_class :=
  BaseModel "Collect_ErrorsOutput"
    [ req "error_summary" (Nested Collect_ErrorsOutputError_Summary);
      req "job_context" (Nested Collect_ErrorsOutputJob_Context);
      req "log_statistics" (Nested Collect_ErrorsOutputLog_Statistics) ].

Definition Extract_Build_InfoOutputEnvironment_Info : model_class :=
  BaseModel "Extract_Build_InfoOutputEnvironment_Info"
    [ opt "os" Str;
      opt "node_version" Str;
      opt "python_version" Str;
      opt "java_version" Str ].

Definition Extract_Build_InfoOutput : model_class :=
  BaseModel "Extract_Build_InfoOutput"
    [ req "build_commands" (ListOf Str);
      req "dependencies" (ListOf Str);
      opt "build_artifacts" (ListOf Str);
      opt "environment_info" (Nested Extract_Build_InfoOutputEnvironment_Info) ].

(** *** Remediator *)

Definition Propose_RemediationOutput : model_class :=
  BaseModel "Propose_RemediationOutput"
    [ req "proposed_diff" Str;
      req "files_to_change" (ListOf Str);
      req "rationale" Str ].

End Models.
Export Models.

(** ** Collaborators *)

(** What the agents call outside the repository.  Each collaborator is
    taken as it answers: a value or an exception, by its arguments.

    - [json_loads], [json_dumps]: the [json] module;
    - [parse_with_fallback], [invoke_intelligence], [setup_dacp_logging]
      and the attributes an agent inherits from [dacp.Agent]: the dacp
      package;
    - [get_template] (over the loader for ["."] and the agent's prompts
      directory) and [render]: jinja2;
    - [behavioural_contract]: the decorator of the task functions, given
      the decorator's keyword arguments, the call's arguments and the
      decorated call;
    - [getenv], [mkdir_parent]: [os.getenv] and
      [Path(f).parent.mkdir(parents=True, exist_ok=True)]. *)
Record Env : Type := {
  json_loads : string -> outcome pyval;
  json_dumps : pyval -> outcome string;
  parse_with_fallback : pyval -> model_class -> list (string * pyval) -> outcome pyval;
  invoke_intelligence : string -> list (string * pyval) -> outcome pyval;
  setup_dacp_logging : list (string * pyval) -> outcome unit;
  agent_base : object;
  get_template : string -> outcome string;
  render : string -> list (string * pyval) -> outcome string;
  behavioural_contract :
    list (string * pyval) -> list (string * pyval) -> M pyval -> M pyval;
  getenv : string -> option string;
  mkdir_parent : string -> outcome unit
}.

(** ** What the three agent modules share

    The three [agent.py] files are instances of one generated template:
    the parse functions differ in the model class and the defaults, the
    task functions in the template name, the output format, the inputs and
    the intelligence configuration, [handle_message] in what it does with
    the handler's result.  The shared text is written once here, with
    these as arguments. *)

Module Template.
Section WithEnv.
Variable E : Env.

(** [try: c except cls1 as e: h1 e except cls2 as e: h2 e ...]: the first
    clause whose class the exception is an instance of handles it. *)
Definition try_clauses {A : Type} (c : M A) (clauses : list (string * (exn -> M A))) : M A :=
  fun tr =>
    match c tr with
    | (Ok a, tr') => (Ok a, tr')
    | (Raise e, tr') =>
        match List.find (fun cl => isinstance_exn e (fst cl)) clauses with
        | Some cl => snd cl e tr'
        | None => (Raise e, tr')
        end
    end.

(** The body of every [parse_*_output(response)]. *)
Definition parse_output (cls : model_class) (defaults : list (string * pyval))
    (response : pyval) : M pyval :=
  if isinstance response cls then ret response
  else
    response <-
      match response with
      | PStr s =>
          try_except (ext "json.loads" [PStr s] (json_loads E s)) "JSONDecodeError"
            (fun e => raise (ValueError ("Failed to parse JSON response: " ++ exn_msg e)))
      | _ => ret response
      end ;;
    try_except
      (ext "dacp.parse_with_fallback" [response; PStr (cls_name cls); PDict defaults]
         (parse_with_fallback E response cls defaults))
      "Exception"
      (fun e => raise (ValueError ("Error parsing response with DACP parser: " ++ exn_msg e))).

Definition memory_config : list (string * pyval) :=
  [ ("enabled", PBool false);
    ("format", PStr "string");
    ("usage", PStr "prompt-append");
    ("required", PBool false);
    ("description", PStr "") ].

(** [d.get(k, dflt)] on a value that is a dict. *)
Definition dict_get (d : pyval) (k : string) (dflt : pyval) : pyval :=
  match d with
  | PDict items => default dflt (assoc k items)
  | _ => dflt
  end.

(** The task-specific template, or the default one when jinja2 reports it
    with FileNotFoundError. *)
Definition load_template (name : string) : M string :=
  try_except (ext "jinja2.get_template" [PStr name] (get_template E name))
    "FileNotFoundError"
    (fun _ =>
       ext "log.warning"
         [PStr "Task-specific prompt template not found, using default template"] (Ok tt) ;;;
       ext "jinja2.get_template" [PStr "agent_prompt.jinja2"]
         (get_template E "agent_prompt.jinja2")).

(** The body of every task function: render the prompt, call the model,
    parse its answer. *)
Definition run_task (template_name output_format : string)
    (input_dict : list (string * pyval)) (memory_summary : pyval)
    (intelligence_config : list (string * pyval)) (parse : pyval -> M pyval) : M pyval :=
  template <- load_template template_name ;;
  let context :=
    ([ ("input", PDict input_dict);
       ("memory_summary",
         if truthy (dict_get (PDict memory_config) "enabled" PNone)
         then memory_summary else PStr "");
       ("output_format", PStr output_format);
       ("memory_config", PDict memory_config) ] ++ input_dict)%list in
  prompt <- ext "jinja2.render" [PStr template; PDict context] (render E template context) ;;
  result <- ext "dacp.invoke_intelligence" [PStr prompt; PDict intelligence_config]
              (invoke_intelligence E prompt intelligence_config) ;;
  parse result.

(** [self.get_memory() if hasattr(self, 'get_memory') else ""].  No agent
    class of the repository defines [get_memory], so the lookup is decided
    by what the agent inherits. *)
Definition get_memory_summary : M pyval :=
  match getattr (agent_base E) "get_memory" with
  | Some a => call a ∅
  | None => ret (PStr "")
  end.

(** The value of a bound parameter. *)
Definition arg (args : gmap string pyval) (name : string) : pyval :=
  default PNone (args !! name).

(** [os.getenv(name, dflt)], for a [name] read from the configuration. *)
Definition os_getenv (name dflt : pyval) : pyval :=
  match name with
  | PStr n => match getenv E n with Some v => PStr v | None => dflt end
  | _ => dflt
  end.

(** The body of every [setup_logging(self)], for the agent's [config]. *)
Definition setup_logging_body (config : pyval) : M pyval :=
  let logging_config := dict_get config "logging" (PDict []) in
  if negb (truthy (dict_get logging_config "enabled" (PBool true))) then ret PNone
  else
    let env_overrides := dict_get logging_config "env_overrides" (PDict []) in
    let overridden key dflt :=
      let v := dict_get logging_config key dflt in
      if has_key key env_overrides
      then os_getenv (dict_get env_overrides key PNone) v else v in
    let level := overridden "level" (PStr "INFO") in
    let format_style := overridden "format_style" (PStr "emoji") in
    let log_file := overridden "log_file" PNone in
    (if truthy log_file
     then match log_file with
          | PStr f => ext "Path.parent.mkdir" [log_file] (mkdir_parent E f)
          | _ => ret tt
          end
     else ret tt) ;;;
    let kwargs :=
      [ ("level", level);
        ("format_style", format_style);
        ("include_timestamp", dict_get logging_config "include_timestamp" (PBool true));
        ("log_file", log_file) ] in
    ext "dacp.setup_dacp_logging" [PDict kwargs] (setup_dacp_logging E kwargs) ;;;
    ret PNone.

(** The body of every [__init__(self, agent_id, orchestrator)] when it is
    reached through [handle_message]: the arguments are message values, and
    none of those has a [register_agent] method.  The assignments to [self]
    are recorded only. *)
Definition init_body (args : gmap string pyval) : M pyval :=
  ext "dacp.Agent.__init__" [] (Ok tt) ;;;
  ext "self.agent_id =" [arg args "agent_id"] (Ok tt) ;;;
  raise (AttributeError ("'" ++ type_name (arg args "orchestrator")
                           ++ "' object has no attribute 'register_agent'")).

Definition error_envelope (text : string) : pyval := PDict [("error", PStr text)].

(** The two [except] clauses of [handle_message]. *)
Definition except_clauses (task : string) : list (string * (exn -> M pyval)) :=
  [ ("TypeError",
      fun e => ret (error_envelope
                      ("Invalid parameters for task " ++ task ++ ": " ++ exn_msg e)));
    ("Exception",
      fun e => ret (error_envelope
                      ("Error executing task " ++ task ++ ": " ++ exn_msg e))) ].

(** The body of every [handle_message(self, message)]; [finish] is what the
    agent does with the handler's result inside the [try]. *)
Definition dispatch (finish : pyval -> M pyval) (self : object)
    (message : gmap string pyval) : M pyval :=
  let task := default PNone (message !! "task") in
  if negb (truthy task) then ret (error_envelope "Missing required field: task")
  else
    match task with
    | PStr t =>
        let method_name := replace t "-" "_" in
        match getattr self method_name with
        | None => ret (error_envelope ("Unknown task: " ++ t))
        | Some method =>
            try_clauses
              (let method_params := delete "task" message in
               result <- call method method_params ;;
               finish result)
              (except_clauses t)
        end
    | _ =>
        raise (AttributeError ("'" ++ type_name task ++ "' object has no attribute 'replace'"))
    end.

(** [message.get] and [message.items] need a dict: what [handle_message]
    does when it is itself the handler and gets a message value. *)
Definition dispatch_value (finish : pyval -> M pyval) (self : object)
    (message : pyval) : M pyval :=
  match message with
  | PDict items => dispatch finish self (list_to_map items)
  | _ => raise (AttributeError ("'" ++ type_name message ++ "' object has no attribute 'get'"))
  end.

Definition RecursionError : exn :=
  Exn ["RecursionError"; "RuntimeError"; "Exception"; "BaseException"; "object"]
    "maximum recursion depth exceeded".

(** The attributes an agent class adds to what it inherits: the instance
    attributes [__init__] sets, then the methods of the class.  [depth] is
    how many nested dispatches the interpreter's recursion limit leaves
    room for: [handle_message] is an attribute too, so a message can name
    it as its task. *)
Fixpoint agent_object (class_name : string) (agent_id model config : pyval)
    (finish : pyval -> M pyval) (tasks : list (string * attr)) (depth : nat) : object :=
  ([ ("agent_id", AData agent_id);
     ("model", AData model);
     ("config", AData config);
     ("__init__",
       AMethod (class_name ++ ".__init__") [("agent_id", None); ("orchestrator", None)]
         init_body);
     ("handle_message",
       AMethod (class_name ++ ".handle_message") [("message", None)]
         (fun args =>
            match depth with
            | O => raise RecursionError
            | S d =>
                dispatch_value finish
                  (agent_object class_name agent_id model config finish tasks d)
                  (arg args "message")
            end));
     ("setup_logging",
       AMethod (class_name ++ ".setup_logging") [] (fun _ => setup_logging_body config)) ]
   ++ tasks ++ agent_base E)%list.

End WithEnv.
End Template.

(** ** The three agents *)

Import Template.

Module Analyzer.
Section WithEnv.
Variable E : Env.

Definition analyze_error_defaults : list (string * pyval) :=
  [ ("analysis_result", PDict
      [ ("root_cause", PStr "default_root_cause");
        ("error_category", PStr "default_error_category");
        ("confidence_level", PStr "default_confidence_level");
        ("impact_assessment", PStr "default_impact_assessment") ]);
    ("recommended_fixes", PList []);
    ("developer_message", PDict
      [ ("summary", PStr "default_summary");
        ("detailed_explanation", PStr "default_detailed_explanation");
        ("next_steps", PList []);
        ("related_documentation", PList []);
        ("prevention_tips", PList []) ]);
    ("urgency_level", PStr "how_default") ].

Definition parse_analyze_error_output (response : pyval) : M pyval :=
  parse_output E Analyze_ErrorOutput analyze_error_defaults response.

Definition generate_pr_comment_defaults : list (string * pyval) :=
  [ ("pr_comment", PStr "formatted_default");
    ("comment_metadata", PDict
      [ ("comment_type", PStr "default_comment_type");
        ("tags", PList []);
        ("urgency", PStr "default_urgency") ]) ].

Definition parse_generate_pr_comment_output (response : pyval) : M pyval :=
  parse_output E Generate_Pr_CommentOutput generate_pr_comment_defaults response.

Definition suggest_workflow_improvements_defaults : list (string * pyval) :=
  [ ("workflow_improvements", PList []);
    ("prevention_strategies", PList []);
    ("monitoring_recommendations", PList []) ].

Definition parse_suggest_workflow_improvements_output (response : pyval) : M pyval :=
  parse_output E Suggest_Workflow_ImprovementsOutput suggest_workflow_improvements_defaults response.

Definition analyze_error_contract : list (string * pyval) :=
  [ ("version", PStr "0.1.2");
    ("description", PStr "Analyze structured error data and provide developer-friendly explanations");
    ("role", PStr "analyst");
    ("behavioural_flags", PDict
      [ ("conservatism", PStr "moderate");
        ("verbosity", PStr "comprehensive") ]);
    ("response_contract", PDict
      [ ("output_format", PDict
          [ ("required_fields", PList [PStr "analysis_result"; PStr "recommended_fixes"; PStr "developer_message"; PStr "urgency_level"]) ]) ]) ].

Definition analyze_error_output_format : string :=
  "
- analysis_result (required): object
  - root_cause (required): string
    Clear explanation of what caused the error
  - error_category (required): string
  - confidence_level (required): string
    Confidence in the root cause analysis
  - impact_assessment (required): string
    Assessment of the impact on the development workflow
- recommended_fixes (required): array of objects
  Each item contains:
    - fix_title (required): string
      Short title for the fix
    - fix_description (required): string
      Detailed description of the fix
    - fix_type (required): string
    - estimated_effort (required): string
    - code_changes (optional): array of objects
      Specific code changes needed
      Each item contains:
        - file_path (optional): string
        - suggested_change (optional): string
        - change_type (optional): string
    - commands_to_run (optional): array of strings
      Commands to execute for the fix
    - prerequisites (optional): array of strings
      Prerequisites for this fix
- developer_message (required): object
  - summary (required): string
    Brief summary for the developer
  - detailed_explanation (required): string
    Detailed explanation in developer-friendly language
  - next_steps (required): array of strings
    Prioritized list of next steps
  - related_documentation (optional): array of objects
    Each item contains:
      - title (optional): string
      - url (optional): string
  - prevention_tips (optional): array of strings
    Tips to prevent similar issues in the future
- urgency_level (required): string
  How urgently this needs to be addressed
".

Definition analyze_error_intelligence_config : list (string * pyval) :=
  [ ("engine", PStr "openai");
    ("model", PStr "gpt-4");
    ("endpoint", PStr "https://api.openai.com/v1");
    ("temperature", PFloat "0.3");
    ("max_tokens", PInt 2000) ].

(** The task function [analyze_error], under its [behavioural_contract] decorator. *)
Definition analyze_error (error_summary job_context log_statistics additional_context memory_summary : pyval) : M pyval :=
  let input_dict :=
    [ ("error_summary", error_summary);
      ("job_context", job_context);
      ("log_statistics", log_statistics);
      ("additional_context", additional_context) ] in
  behavioural_contract E analyze_error_contract
    (input_dict ++ [("memory_summary", memory_summary)])%list
    (run_task E "analyze_error.jinja2" analyze_error_output_format input_dict memory_summary
       analyze_error_intelligence_config parse_analyze_error_output).

Definition generate_pr_comment_contract : list (string * pyval) :=
  [ ("version", PStr "0.1.2");
    ("description", PStr "Generate a formatted comment for posting to a GitHub PR");
    ("role", PStr "analyst");
    ("behavioural_flags", PDict
      [ ("conservatism", PStr "moderate");
        ("verbosity", PStr "comprehensive") ]);
    ("response_contract", PDict
      [ ("output_format", PDict
          [ ("required_fields", PList [PStr "pr_comment"; PStr "comment_metadata"]) ]) ]) ].

Definition generate_pr_comment_output_format : string :=
  "
- pr_comment (required): string
  Formatted markdown comment for GitHub PR
- comment_metadata (required): object
  - comment_type (required): string
  - tags (required): array of strings
    Tags for categorizing the comment
  - urgency (required): string
".

Definition generate_pr_comment_intelligence_config : list (string * pyval) :=
  [ ("engine", PStr "openai");
    ("model", PStr "gpt-4");
    ("endpoint", PStr "https://api.openai.com/v1");
    ("temperature", PFloat "0.3");
    ("max_tokens", PInt 2000) ].

(** The task function [generate_pr_comment], under its [behavioural_contract] decorator. *)
Definition generate_pr_comment (analysis_result recommended_fixes developer_message pr_number repository job_name workflow_name memory_summary : pyval) : M pyval :=
  let input_dict :=
    [ ("analysis_result", analysis_result);
      ("recommended_fixes", recommended_fixes);
      ("developer_message", developer_message);
      ("pr_number", pr_number);
      ("repository", repository);
      ("job_name", job_name);
      ("workflow_name", workflow_name) ] in
  behavioural_contract E generate_pr_comment_contract
    (input_dict ++ [("memory_summary", memory_summary)])%list
    (run_task E "generate_pr_comment.jinja2" generate_pr_comment_output_format input_dict memory_summary
       generate_pr_comment_intelligence_config parse_generate_pr_comment_output).

Definition suggest_workflow_improvements_contract : list (string * pyval) :=
  [ ("version", PStr "0.1.2");
    ("description", PStr "Suggest improvements to the GitHub Actions workflow to prevent similar issues");
    ("role", PStr "analyst");
    ("behavioural_flags", PDict
      [ ("conservatism", PStr "moderate");
        ("verbosity", PStr "comprehensive") ]);
    ("response_contract", PDict
      [ ("output_format", PDict
          [ ("required_fields", PList [PStr "workflow_improvements"; PStr "prevention_strategies"; PStr "monitoring_recommendations"]) ]) ]) ].

Definition suggest_workflow_improvements_output_format : string :=
  "
- workflow_improvements (required): array of objects
  Each item contains:
    - improvement_title (required): string
    - improvement_description (required): string
    - improvement_type (required): string
    - implementation_difficulty (required): string
    - expected_benefit (required): string
    - workflow_changes (optional): string
      Specific YAML changes needed
- prevention_strategies (required): array of strings
  General strategies to prevent similar issues
- monitoring_recommendations (required): array of strings
  Recommendations for better monitoring
".

Definition suggest_workflow_improvements_intelligence_config : list (string * pyval) :=
  [ ("engine", PStr "openai");
    ("model", PStr "gpt-4");
    ("endpoint", PStr "https://api.openai.com/v1");
    ("temperature", PFloat "0.3");
    ("max_tokens", PInt 2000) ].

(** The task function [suggest_workflow_improvements], under its [behavioural_contract] decorator. *)
Definition suggest_workflow_improvements (error_analysis workflow_name repository recurring_patterns memory_summary : pyval) : M pyval :=
  let input_dict :=
    [ ("error_analysis", error_analysis);
      ("workflow_name", workflow_name);
      ("repository", repository);
      ("recurring_patterns", recurring_patterns) ] in
  behavioural_contract E suggest_workflow_improvements_contract
    (input_dict ++ [("memory_summary", memory_summary)])%list
    (run_task E "suggest_workflow_improvements.jinja2" suggest_workflow_improvements_output_format input_dict memory_summary
       suggest_workflow_improvements_intelligence_config parse_suggest_workflow_improvements_output).

Definition class_name : string := "GithubActionsErrorAnalyzerAgent".

(** [self.config], as [__init__] sets it. *)
Definition config : pyval :=
  PDict
    [ ("logging", PDict
        [ ("enabled", PBool true);
          ("level", PStr "INFO");
          ("format_style", PStr "emoji");
          ("include_timestamp", PBool true);
          ("log_file", PStr "./logs/github-actions-analyzer.log");
          ("env_overrides", PDict
            [ ("level", PStr "DACP_LOG_LEVEL");
              ("format_style", PStr "DACP_LOG_STYLE");
              ("log_file", PStr "DACP_LOG_FILE_ANALYZER") ]) ]);
      ("intelligence", PDict
        [ ("engine", PStr "openai");
          ("model", PStr "gpt-4");
          ("endpoint", PStr "https://api.openai.com/v1");
          ("config", PDict
            [ ("temperature", PFloat "0.3");
              ("max_tokens", PInt 2000) ]) ]) ].

(** The names of the task methods of the class. *)
Definition tasks : list string :=
  [ "analyze_error"; "generate_pr_comment"; "suggest_workflow_improvements" ].

(** The method [GithubActionsErrorAnalyzerAgent.analyze_error]. *)
Definition analyze_error_method : attr :=
  AMethod (class_name ++ ".analyze_error")
    [ ("error_summary", None); ("job_context", None); ("log_statistics", None); ("additional_context", None) ]
    (fun args =>
       memory_summary <- get_memory_summary E ;;
       analyze_error (arg args "error_summary") (arg args "job_context") (arg args "log_statistics") (arg args "additional_context") memory_summary).

(** The method [GithubActionsErrorAnalyzerAgent.generate_pr_comment]. *)
Definition generate_pr_comment_method : attr :=
  AMethod (class_name ++ ".generate_pr_comment")
    [ ("analysis_result", None); ("recommended_fixes", None); ("developer_message", None); ("pr_number", None); ("repository", None); ("job_name", None); ("workflow_name", None) ]
    (fun args =>
       memory_summary <- get_memory_summary E ;;
       generate_pr_comment (arg args "analysis_result") (arg args "recommended_fixes") (arg args "developer_message") (arg args "pr_number") (arg args "repository") (arg args "job_name") (arg args "workflow_name") memory_summary).

(** The method [GithubActionsErrorAnalyzerAgent.suggest_workflow_improvements]. *)
Definition suggest_workflow_improvements_method : attr :=
  AMethod (class_name ++ ".suggest_workflow_improvements")
    [ ("error_analysis", None); ("workflow_name", None); ("repository", None); ("recurring_patterns", None) ]
    (fun args =>
       memory_summary <- get_memory_summary E ;;
       suggest_workflow_improvements (arg args "error_analysis") (arg args "workflow_name") (arg args "repository") (arg args "recurring_patterns") memory_summary).

Definition task_methods : list (string * attr) :=
  [ ("analyze_error", analyze_error_method);
    ("generate_pr_comment", generate_pr_comment_method);
    ("suggest_workflow_improvements", suggest_workflow_improvements_method) ].

(** What [handle_message] returns for a handler result: here
    [result.model_dump()] or [result]. *)
Definition finish (result : pyval) : M pyval :=
  ret (if has_model_dump result then model_dump result else result).

(** An agent of the class, as [getattr] sees it. *)
Definition agent (agent_id : string) (depth : nat) : object :=
  agent_object E class_name (PStr agent_id) (PStr "gpt-4") config finish task_methods depth.

Definition handle_message (self : object) (message : gmap string pyval) : M pyval :=
  dispatch finish self message.

End WithEnv.
End Analyzer.

Module Collector.
Section WithEnv.
Variable E : Env.

Definition collect_errors_defaults : list (string * pyval) :=
  [ ("error_summary", PDict
      [ ("primary_error", PStr "default_primary_error");
        ("error_type", PStr "default_error_type");
        ("severity", PStr "default_severity");
        ("affected_files", PList []);
        ("stack_trace", PStr "default_stack_trace");
        ("error_context", PStr "default_error_context");
        ("suggested_keywords", PList []) ]);
    ("job_context", PDict
      [ ("job_name", PStr "default_job_name");
        ("workflow_name", PStr "default_workflow_name");
        ("repository", PStr "default_repository");
        ("branch", PStr "default_branch");
        ("commit_sha", PStr "default_commit_sha");
        ("pr_number", PInt 0);
        ("failed_step", PStr "default_failed_step") ]);
    ("log_statistics", PDict
      [ ("total_lines", PInt 0);
        ("error_lines", PInt 0);
        ("warning_lines", PInt 0);
        ("duration_estimate", PStr "default_duration_estimate") ]) ].

Definition parse_collect_errors_output (response : pyval) : M pyval :=
  parse_output E Collect_ErrorsOutput collect_errors_defaults response.

Definition extract_build_info_defaults : list (string * pyval) :=
  [ ("build_commands", PList []);
    ("dependencies", PList []);
    ("build_artifacts", PList []);
    ("environment_info", PDict
      [ ("os", PStr "default_os");
        ("node_version", PStr "default_node_version");
        ("python_version", PStr "default_python_version");
        ("java_version", PStr "default_java_version") ]) ].

Definition parse_extract_build_info_output (response : pyval) : M pyval :=
  parse_output E Extract_Build_InfoOutput extract_build_info_defaults response.

Definition collect_errors_contract : list (string * pyval) :=
  [ ("version", PStr "0.1.2");
    ("description", PStr "Extract and summarize errors from GitHub Actions logs");
    ("role", PStr "analyst");
    ("behavioural_flags", PDict
      [ ("conservatism", PStr "high");
        ("verbosity", PStr "detailed") ]);
    ("response_contract", PDict
      [ ("output_format", PDict
          [ ("required_fields", PList [PStr "error_summary"; PStr "job_context"; PStr "log_statistics"]) ]) ]) ].

Definition collect_errors_output_format : string :=
  "
- error_summary (required): object
  - primary_error (required): string
    The main error message extracted from logs
  - error_type (required): string
  - severity (required): string
  - affected_files (optional): array of strings
    List of files mentioned in the error
  - stack_trace (optional): string
    Cleaned and formatted stack trace if available
  - error_context (optional): string
    Context around the error (before/after lines)
  - suggested_keywords (optional): array of strings
    Keywords for further analysis
- job_context (required): object
  - job_name (required): string
  - workflow_name (required): string
  - repository (required): string
  - branch (optional): string
  - commit_sha (optional): string
  - pr_number (optional): integer
  - failed_step (optional): string
- log_statistics (required): object
  - total_lines (required): integer
  - error_lines (required): integer
  - warning_lines (required): integer
  - duration_estimate (optional): string
    Estimated job duration before failure
".

Definition collect_errors_intelligence_config : list (string * pyval) :=
  [ ("engine", PStr "openai");
    ("model", PStr "gpt-3.5-turbo");
    ("endpoint", PStr "https://api.openai.com/v1");
    ("temperature", PFloat "0.2");
    ("max_tokens", PInt 1500) ].

(** The task function [collect_errors], under its [behavioural_contract] decorator. *)
Definition collect_errors (job_name workflow_name raw_logs job_step repository branch commit_sha pr_number memory_summary : pyval) : M pyval :=
  let input_dict :=
    [ ("job_name", job_name);
      ("workflow_name", workflow_name);
      ("raw_logs", raw_logs);
      ("job_step", job_step);
      ("repository", repository);
      ("branch", branch);
      ("commit_sha", commit_sha);
      ("pr_number", pr_number) ] in
  behavioural_contract E collect_errors_contract
    (input_dict ++ [("memory_summary", memory_summary)])%list
    (run_task E "collect_errors.jinja2" collect_errors_output_format input_dict memory_summary
       collect_errors_intelligence_config parse_collect_errors_output).

Definition extract_build_info_contract : list (string * pyval) :=
  [ ("version", PStr "0.1.2");
    ("description", PStr "Extract build-specific information from logs");
    ("role", PStr "analyst");
    ("behavioural_flags", PDict
      [ ("conservatism", PStr "high");
        ("verbosity", PStr "detailed") ]);
    ("response_contract", PDict
      [ ("output_format", PDict
          [ ("required_fields", PList [PStr "build_commands"; PStr "dependencies"]) ]) ]) ].

Definition extract_build_info_output_format : string :=
  "
- build_commands (required): array of strings
  Build commands that were executed
- dependencies (required): array of strings
  Dependencies mentioned in the build
- build_artifacts (optional): array of strings
  Build artifacts that were expected
- environment_info (optional): object
  Environment information extracted from logs
  - os (optional): string
  - node_version (optional): string
  - python_version (optional): string
  - java_version (optional): string
".

Definition extract_build_info_intelligence_config : list (string * pyval) :=
  [ ("engine", PStr "openai");
    ("model", PStr "gpt-3.5-turbo");
    ("endpoint", PStr "https://api.openai.com/v1");
    ("temperature", PFloat "0.2");
    ("max_tokens", PInt 1500) ].

(** The task function [extract_build_info], under its [behavioural_contract] decorator. *)
Definition extract_build_info (raw_logs build_system memory_summary : pyval) : M pyval :=
  let input_dict :=
    [ ("raw_logs", raw_logs);
      ("build_system", build_system) ] in
  behavioural_contract E extract_build_info_contract
    (input_dict ++ [("memory_summary", memory_summary)])%list
    (run_task E "extract_build_info.jinja2" extract_build_info_output_format input_dict memory_summary
       extract_build_info_intelligence_config parse_extract_build_info_output).

Definition class_name : string := "GithubActionsErrorCollectorAgent".

(** [self.config], as [__init__] sets it. *)
Definition config : pyval :=
  PDict
    [ ("logging", PDict
        [ ("enabled", PBool true);
          ("level", PStr "INFO");
          ("format_style", PStr "emoji");
          ("include_timestamp", PBool true);
          ("log_file", PStr "./logs/github-actions-collector.log");
          ("env_overrides", PDict
            [ ("level", PStr "DACP_LOG_LEVEL");
              ("format_style", PStr "DACP_LOG_STYLE");
              ("log_file", PStr "DACP_LOG_FILE_COLLECTOR") ]) ]);
      ("intelligence", PDict
        [ ("engine", PStr "openai");
          ("model", PStr "gpt-3.5-turbo");
          ("endpoint", PStr "https://api.openai.com/v1");
          ("config", PDict
            [ ("temperature", PFloat "0.2");
              ("max_tokens", PInt 1500) ]) ]) ].

(** The names of the task methods of the class. *)
Definition tasks : list string :=
  [ "collect_errors"; "extract_build_info" ].

(** The method [GithubActionsErrorCollectorAgent.collect_errors]. *)
Definition collect_errors_method : attr :=
  AMethod (class_name ++ ".collect_errors")
    [ ("job_name", None); ("workflow_name", None); ("raw_logs", None); ("job_step", None); ("repository", None); ("branch", None); ("commit_sha", None); ("pr_number", None) ]
    (fun args =>
       memory_summary <- get_memory_summary E ;;
       collect_errors (arg args "job_name") (arg args "workflow_name") (arg args "raw_logs") (arg args "job_step") (arg args "repository") (arg args "branch") (arg args "commit_sha") (arg args "pr_number") memory_summary).

(** The method [GithubActionsErrorCollectorAgent.extract_build_info]. *)
Definition extract_build_info_method : attr :=
  AMethod (class_name ++ ".extract_build_info")
    [ ("raw_logs", None); ("build_system", None) ]
    (fun args =>
       memory_summary <- get_memory_summary E ;;
       extract_build_info (arg args "raw_logs") (arg args "build_system") memory_summary).

Definition task_methods : list (string * attr) :=
  [ ("collect_errors", collect_errors_method);
    ("extract_build_info", extract_build_info_method) ].

(** What [handle_message] returns for a handler result: here
    [json.dumps(result.model_dump())] or [json.dumps(result)]. *)
Definition finish (result : pyval) : M pyval :=
  let value := if has_model_dump result then model_dump result else result in
  text <- ext "json.dumps" [value] (json_dumps E value) ;;
  ret (PStr text).

(** An agent of the class, as [getattr] sees it. *)
Definition agent (agent_id : string) (depth : nat) : object :=
  agent_object E class_name (PStr agent_id) (PStr "gpt-3.5-turbo") config finish task_methods depth.

Definition handle_message (self : object) (message : gmap string pyval) : M pyval :=
  dispatch finish self message.

End WithEnv.
End Collector.

Module Remediator.
Section WithEnv.
Variable E : Env.

Definition propose_remediation_defaults : list (string * pyval) :=
  [ ("proposed_diff", PStr "unified_default");
    ("files_to_change", PList []);
    ("rationale", PStr "explanation_default") ].

Definition parse_propose_remediation_output (response : pyval) : M pyval :=
  parse_output E Propose_RemediationOutput propose_remediation_defaults response.

Definition propose_remediation_contract : list (string * pyval) :=
  [ ("version", PStr "0.1.2");
    ("description", PStr "Propose a code change (diff) to fix the error described in the analyzer output.");
    ("role", PStr "executor");
    ("behavioural_flags", PDict
      [ ("conservatism", PStr "moderate");
        ("verbosity", PStr "concise") ]);
    ("response_contract", PDict
      [ ("output_format", PDict
          [ ("required_fields", PList [PStr "proposed_diff"; PStr "files_to_change"; PStr "rationale"]) ]) ]) ].

Definition propose_remediation_output_format : string :=
  "
- proposed_diff (required): string
  Unified diff (patch) showing the proposed fix
- files_to_change (required): array of strings
  List of files that should be changed
- rationale (required): string
  Explanation of why this fix is proposed
".

Definition propose_remediation_intelligence_config : list (string * pyval) :=
  [ ("engine", PStr "openai");
    ("model", PStr "gpt-4");
    ("endpoint", PStr "https://api.openai.com/v1");
    ("temperature", PFloat "0.2");
    ("max_tokens", PInt 2000) ].

(** The task function [propose_remediation], under its [behavioural_contract] decorator. *)
Definition propose_remediation (analysis_result raw_logs repository branch commit_sha memory_summary : pyval) : M pyval :=
  let input_dict :=
    [ ("analysis_result", analysis_result);
      ("raw_logs", raw_logs);
      ("repository", repository);
      ("branch", branch);
      ("commit_sha", commit_sha) ] in
  behavioural_contract E propose_remediation_contract
    (input_dict ++ [("memory_summary", memory_summary)])%list
    (run_task E "propose_remediation.jinja2" propose_remediation_output_format input_dict memory_summary
       propose_remediation_intelligence_config parse_propose_remediation_output).

Definition class_name : string := "GithubActionsErrorRemediatorAgent".

(** [self.config], as [__init__] sets it. *)
Definition config : pyval :=
  PDict
    [ ("logging", PDict
        [ ("enabled", PBool true);
          ("level", PStr "INFO");
          ("format_style", PStr "emoji");
          ("include_timestamp", PBool true);
          ("log_file", PStr "./logs/github-actions-remediator.log");
          ("env_overrides", PDict
            [ ("level", PStr "DACP_LOG_LEVEL");
              ("format_style", PStr "DACP_LOG_STYLE");
              ("log_file", PStr "DACP_LOG_FILE_REMEDIATOR") ]) ]);
      ("intelligence", PDict
        [ ("engine", PStr "openai");
          ("model", PStr "gpt-4");
          ("endpoint", PStr "https://api.openai.com/v1");
          ("config", PDict
            [ ("temperature", PFloat "0.2");
              ("max_tokens", PInt 2000) ]) ]) ].

(** The names of the task methods of the class. *)
Definition tasks : list string :=
  [ "propose_remediation" ].

(** The method [GithubActionsErrorRemediatorAgent.propose_remediation]. *)
Definition propose_remediation_method : attr :=
  AMethod (class_name ++ ".propose_remediation")
    [ ("analysis_result", None); ("raw_logs", None); ("repository", None); ("branch", None); ("commit_sha", None) ]
    (fun args =>
       memory_summary <- get_memory_summary E ;;
       propose_remediation (arg args "analysis_result") (arg args "raw_logs") (arg args "repository") (arg args "branch") (arg args "commit_sha") memory_summary).

Definition task_methods : list (string * attr) :=
  [ ("propose_remediation", propose_remediation_method) ].

(** What [handle_message] returns for a handler result: here
    [result.model_dump()] or [result]. *)
Definition finish (result : pyval) : M pyval :=
  ret (if has_model_dump result then model_dump result else result).

(** An agent of the class, as [getattr] sees it. *)
Definition agent (agent_id : string) (depth : nat) : object :=
  agent_object E class_name (PStr agent_id) (PStr "gpt-4") config finish task_methods depth.

Definition handle_message (self : object) (message : gmap string pyval) : M pyval :=
  dispatch finish self message.

End WithEnv.
End Remediator.

(** ** The reconciliation engine

    [parse_with_fallback] is imported from the dacp package; the
    repository holds its callers only.  The definitions of this module
    follow the specification's description of the engine (its sections 3
    and 4.1) instead. *)

Module Reconciliation.

(** Modelled from the spec: the [kind] of a SchemaNode, "one of {string,
    integer, boolean, object, array, enum}".  The engine's code is missing
    from the sources. *)
Inductive Kind : Type := KString | KInteger | KBoolean | KObject | KArray | KEnum.

(** Modelled from the spec: the SchemaNode of section 3, with its fields
    [kind], [required], [default], [children] (for an object), [element]
    (for an array) and [allowed_values] (for an enum).  The schema
    declarations are missing from the sources. *)
Inductive SchemaNode : Type :=
| Node (kind : Kind) (required : bool) (default : option pyval)
    (children : list (string * SchemaNode)) (element : option SchemaNode)
    (allowed_values : list string).

Definition kind (n : SchemaNode) : Kind :=
  match n with Node k _ _ _ _ _ => k end.
Definition required (n : SchemaNode) : bool :=
  match n with Node _ r _ _ _ _ => r end.
Definition default (n : SchemaNode) : option pyval :=
  match n with Node _ _ d _ _ _ => d end.
Definition children (n : SchemaNode) : list (string * SchemaNode) :=
  match n with Node _ _ _ cs _ _ => cs end.
Definition element (n : SchemaNode) : option SchemaNode :=
  match n with Node _ _ _ _ e _ => e end.
Definition allowed_values (n : SchemaNode) : list string :=
  match n with Node _ _ _ _ _ a => a end.

(** Modelled from the spec: the two fatal kinds of section 7 that the
    engine produces; a path is the list of field names from the root. *)
Inductive ReconciliationError : Type :=
| MalformedInput (detail : string)
| MissingRequiredField (path : list string).

(** The path as the specification writes it: [analysis_result.root_cause]. *)
Definition path_string (path : list string) : string := String.concat "." path.

(** Modelled from the spec: the result of the engine's contract,
    [Result<ReconciledRecord, ReconciliationError>]; the record is the
    mapping from field names to values.  The engine's code is missing from
    the sources. *)
Inductive Result : Type :=
| Success (record : pyval)
| Failure (e : ReconciliationError).

(** What a node makes of a value that is present: the value as the record
    holds it, "treated as absent", or a fatal failure below it. *)
Inductive verdict : Type :=
| Accepted (v : pyval)
| Absent
| Fatal (e : ReconciliationError).

(** *** Coercions *)

Definition digit (c : ascii) : option Z :=
  let n := nat_of_ascii c in
  if ((48 <=? n) && (n <=? 57))%nat then Some (Z.of_nat (n - 48)) else None.

Fixpoint parse_digits (acc : Z) (s : string) : option Z :=
  match s with
  | EmptyString => Some acc
  | String c s' =>
      match digit c with
      | Some d => parse_digits (10 * acc + d) s'
      | None => None
      end
  end.

(** Modelled from the spec: the coercion string to integer of "a
    numeric-looking string": decimal digits after an optional minus sign.
    The coercion table is missing from the sources. *)
Definition parse_int (s : string) : option Z :=
  match s with
  | EmptyString => None
  | String "-" EmptyString => None
  | String "-" s' => option_map Z.opp (parse_digits 0 s')
  | _ => parse_digits 0 s
  end.

Definition lower_ascii (c : ascii) : ascii :=
  let n := nat_of_ascii c in
  if ((65 <=? n) && (n <=? 90))%nat then ascii_of_nat (n + 32) else c.

Fixpoint lower (s : string) : string :=
  match s with
  | EmptyString => EmptyString
  | String c s' => String (lower_ascii c) (lower s')
  end.

(** Modelled from the spec: the "case-insensitive match" of an enum value
    against an allowed value, over ASCII letters.  The engine's code is
    missing from the sources. *)
Definition ci_eqb (a b : string) : bool := String.eqb (lower a) (lower b).

(** Modelled from the spec: the coercion string to boolean "via canonical
    token set", taken to be the two JSON tokens.  The token set is missing
    from the sources. *)
Definition parse_bool (s : string) : option bool :=
  if ci_eqb s "true" then Some true
  else if ci_eqb s "false" then Some false
  else None.

(** *** The walk *)

(** Modelled from the spec: what stands for a field that is absent (or
    treated as absent): "if a default exists, substitute the default and
    continue; if required and no default, abort with
    MissingRequiredField(path)"; an optional field without a default stays
    null.  The engine's code is missing from the sources. *)
Definition fallback (path : list string) (n : SchemaNode) : Result :=
  match default n with
  | Some d => Success d
  | None => if required n then Failure (MissingRequiredField path) else Success PNone
  end.

(** Modelled from the spec: a field's value in the record, from what its
    node made of the input: the value it accepted, the failure below it,
    or the fallback when the field is absent or treated as absent.  The
    engine's code is missing from the sources. *)
Definition settle (path : list string) (n : SchemaNode) (seen : option verdict) : Result :=
  match seen with
  | Some (Accepted v) => Success v
  | Some (Fatal e) => Failure e
  | Some Absent | None => fallback path n
  end.

(** Modelled from the spec: the object case of the walk, "for each child
    field, if present in input and of the expected kind, recurse; if absent
    or of the wrong kind" fall back; fields of the input that no child
    names are dropped.  [conform_child] is the walk one level down.  The
    engine's code is missing from the sources. *)
Fixpoint walk (conform_child : list string -> SchemaNode -> pyval -> verdict)
    (path : list string) (fields : list (string * pyval))
    (cs : list (string * SchemaNode)) : ReconciliationError + list (string * pyval) :=
  match cs with
  | [] => inr []
  | (name, c) :: rest =>
      let here := (path ++ [name])%list in
      match settle here c (option_map (conform_child here c) (assoc name fields)) with
      | Failure e => inl e
      | Success x =>
          match walk conform_child path fields rest with
          | inl e => inl e
          | inr xs => inr ((name, x) :: xs)
          end
      end
  end.

(** Modelled from the spec: what the engine does with an array element
    that fails.  Section 4.1 describes [Degrade] ("degrades that element to
    its nested default if available, otherwise" the element is skipped,
    "do not abort the array") and marks it an open design choice; section
    9 names the other choice, to fail the whole array: [Abort].  The
    engine's code is missing from the sources, and so is the choice it
    makes. *)
Inductive ElementPolicy : Type := Degrade | Abort.

(** Modelled from the spec: an array element under [Degrade], "reconciled
    against element schema independently; an individual element failure
    degrades that element to its nested default if available, otherwise"
    the element is skipped.  The engine's code is missing from the
    sources. *)
Definition element_values (e : SchemaNode) (seen : verdict) : list pyval :=
  match seen with
  | Accepted x => [x]
  | Absent | Fatal _ =>
      match default e with
      | Some d => [d]
      | None => []
      end
  end.

(** Modelled from the spec: the elements of an array under [Abort], each
    settled like the field of an object: the values of the elements, or the
    first failure, which fails the array.  The engine's code is missing
    from the sources. *)
Fixpoint gather (settled_elements : list Result) : ReconciliationError + list pyval :=
  match settled_elements with
  | [] => inr []
  | Failure e :: _ => inl e
  | Success x :: rest =>
      match gather rest with
      | inl e => inl e
      | inr xs => inr (x :: xs)
      end
  end.

(** Modelled from the spec: step 2 of the algorithm of section 4.1, the
    depth-first walk of the schema against the parsed structure, by
    [kind]: primitive kinds with the two coercions, enum by
    case-insensitive match against [allowed_values], object and array as
    above, the array by the policy for its elements.  The path of an
    element is the path of the array with the step ["[]"].  The engine's
    code is missing from the sources; so is the diagnostic trail, which is
    left out here: it changes neither the record nor the failure. *)
Fixpoint conform (policy : ElementPolicy) (path : list string) (n : SchemaNode) (v : pyval)
    {struct n} : verdict :=
  match n with
  | Node k _ _ cs el allowed =>
      match k with
      | KString =>
          match v with
          | PStr _ => Accepted v
          | _ => Absent
          end
      | KInteger =>
          match v with
          | PInt _ => Accepted v
          | PStr s =>
              match parse_int s with
              | Some z => Accepted (PInt z)
              | None => Absent
              end
          | _ => Absent
          end
      | KBoolean =>
          match v with
          | PBool _ => Accepted v
          | PStr s =>
              match parse_bool s with
              | Some b => Accepted (PBool b)
              | None => Absent
              end
          | _ => Absent
          end
      | KEnum =>
          match v with
          | PStr s =>
              match List.find (ci_eqb s) allowed with
              | Some a => Accepted (PStr a)
              | None => Absent
              end
          | _ => Absent
          end
      | KObject =>
          match v with
          | PDict fields =>
              match walk (conform policy) path fields cs with
              | inl e => Fatal e
              | inr xs => Accepted (PDict xs)
              end
          | _ => Absent
          end
      | KArray =>
          match v, el with
          | PList items, Some e =>
              let here := (path ++ ["[]"])%list in
              match policy with
              | Degrade =>
                  Accepted
                    (PList (flat_map
                              (fun item => element_values e (conform policy here e item))
                              items))
              | Abort =>
                  match gather (List.map
                                  (fun item => settle here e (Some (conform policy here e item)))
                                  items) with
                  | inl e => Fatal e
                  | inr xs => Accepted (PList xs)
                  end
              end
          | _, _ => Absent
          end
      end
  end.

(** The field of a child in the input, as the walk settles it. *)
Definition settled (policy : ElementPolicy) (path : list string)
    (fields : list (string * pyval)) (name : string) (c : SchemaNode) : Result :=
  settle (path ++ [name]) c
    (option_map (conform policy (path ++ [name]) c) (assoc name fields)).

(** Modelled from the spec: the walk from the root, for a parsed input.
    The engine's code is missing from the sources. *)
Definition reconcile_value (policy : ElementPolicy) (schema : SchemaNode) (v : pyval)
    : Result :=
  settle [] schema (Some (conform policy [] schema v)).

(** Modelled from the spec: [reconcile(raw, schema)] of section 4.1.
    Step 1: "if raw is text, attempt strict JSON parse", failure being
    MalformedInput; then the walk.  The JSON parser is the one of the
    environment.  The engine's code is missing from the sources. *)
Definition reconcile (policy : ElementPolicy) (E : Env) (raw : pyval) (schema : SchemaNode)
    : Result :=
  match raw with
  | PStr text =>
      match json_loads E text with
      | Ok v => reconcile_value policy schema v
      | Raise e => Failure (MalformedInput (exn_msg e))
      end
  | _ => reconcile_value policy schema raw
  end.

(** *** The schema of a parse function *)

(** Modelled from the spec: the default of a field, read from the default
    of the object around it, as the nested default dictionaries of the
    parse functions give it.  The engine's reading of the defaults is
    missing from the sources. *)
Definition field_default (name : string) (dflt : option pyval) : option pyval :=
  match dflt with
  | Some (PDict items) => assoc name items
  | _ => None
  end.

(** Modelled from the spec: the Schema Model that a model class and the
    defaults of its parse function declare (sections 6 and 9: the
    per-task default dictionaries are schema data): a field is required
    unless it is Optional, its default is its entry in the defaults.  The
    engine's reading of the class is missing from the sources. *)
Fixpoint schema_of_class (c : model_class) (optional : bool) (dflt : option pyval)
    {struct c} : SchemaNode :=
  match c with
  | BaseModel _ fields =>
      Node KObject (negb optional) dflt
        ((fix go (fs : list (string * (bool * field_type))) : list (string * SchemaNode) :=
            match fs with
            | [] => []
            | (name, (o, t)) :: rest =>
                (name, schema_of_type t o (field_default name dflt)) :: go rest
            end) fields)
        None []
  end
with schema_of_type (t : field_type) (optional : bool) (dflt : option pyval)
    {struct t} : SchemaNode :=
  match t with
  | Str => Node KString (negb optional) dflt [] None []
  | Int => Node KInteger (negb optional) dflt [] None []
  | ListOf e => Node KArray (negb optional) dflt [] (Some (schema_of_type e false None)) []
  | Nested c => schema_of_class c optional dflt
  end.

(** Modelled from the spec: a fatal kind as the exception that reaches the
    parse function, its text the failure's detail or the dotted path.  The
    engine's exceptions are missing from the sources. *)
Definition exn_of_error (e : ReconciliationError) : exn :=
  match e with
  | MalformedInput detail =>
      Exn ["MalformedInput"; "Exception"; "BaseException"; "object"] detail
  | MissingRequiredField path =>
      Exn ["MissingRequiredField"; "Exception"; "BaseException"; "object"] (path_string path)
  end.

(** Modelled from the spec: [parse_with_fallback(response, model_class,
    defaults)] as the engine run on the schema of the class and the
    defaults, its record made an instance of the class.  The function is
    missing from the sources. *)
Definition engine_parse_with_fallback (policy : ElementPolicy) (E : Env) (response : pyval)
    (cls : model_class) (defaults : list (string * pyval)) : outcome pyval :=
  match reconcile policy E response (schema_of_class cls false (Some (PDict defaults))) with
  | Success (PDict data) => Ok (PModel (cls_name cls) data)
  | Success _ => Raise (ValueError "the reconciled value is not a record")
  | Failure e => Raise (exn_of_error e)
  end.

(** The environment [E] with the engine in the place of dacp's parser. *)
Definition with_engine (policy : ElementPolicy) (E : Env) : Env :=
  {| json_loads := json_loads E;
     json_dumps := json_dumps E;
     parse_with_fallback := engine_parse_with_fallback policy E;
     invoke_intelligence := invoke_intelligence E;
     setup_dacp_logging := setup_dacp_logging E;
     agent_base := agent_base E;
     get_template := get_template E;
     render := render E;
     behavioural_contract := behavioural_contract E;
     getenv := getenv E;
     mkdir_parent := mkdir_parent E |}.

(** *** Paths into schemas and inputs *)

(** A step into an input: to the field of an object, or to the element of
    an array at an index. *)
Inductive step : Type :=
| Field (name : string)
| Item (index : nat).









(** *** Well-formed schemas *)

(** Modelled from the spec: the invariant of section 3, "a node with
    default defined must have a default whose shape matches kind": the
    node accepts its default as it stands; and the names of the children
    of an object are distinct. *)
Fixpoint well_formed (policy : ElementPolicy) (n : SchemaNode) : Prop :=
  match n with
  | Node k r d cs el al =>
      (match d with
       | Some dv => forall path, conform policy path (Node k r d cs el al) dv = Accepted dv
       | None => True
       end)
      /\ NoDup (List.map fst cs)
      /\ (fix all (l : list (string * SchemaNode)) : Prop :=
            match l with
            | [] => True
            | (_, c) :: rest => well_formed policy c /\ all rest
            end) cs
      /\ match el with
         | Some e => well_formed policy e
         | None => True
         end
  end.

(** The record value [x] of a field is one its node leaves as it is. *)
Definition fixed_by (policy : ElementPolicy) (c : SchemaNode) (x : pyval) : Prop :=
  forall path, settle path c (Some (conform policy path c x)) = Success x.

(** The schema of [parse_analyze_error_output]. *)
Definition analyze_error_schema : SchemaNode :=
  schema_of_class Analyze_ErrorOutput false (Some (PDict Analyzer.analyze_error_defaults)).

(** An analysis with one recommended fix, and the same without the title of
    the fix. *)
Definition titled_fix : pyval :=
  PDict [ ("recommended_fixes",
            PList [ PDict [ ("fix_title", PStr "Raise the memory limit");
                            ("fix_description", PStr "Give the job 4 GB");
                            ("fix_type", PStr "configuration");
                            ("estimated_effort", PStr "low") ] ]) ].

Definition untitled_fix : pyval :=
  PDict [ ("recommended_fixes",
            PList [ PDict [ ("fix_description", PStr "Give the job 4 GB");
                            ("fix_type", PStr "configuration");
                            ("estimated_effort", PStr "low") ] ]) ].


End Reconciliation.

(** ** A concrete environment

    Collaborators that answer in the simplest way, for running the agents
    on concrete messages: the JSON parser knows three documents, templates
    are found and render to a fixed prompt, the decorator runs the
    decorated call, no environment variable is set, and dacp's parser
    answers every response with the instance that the defaults make. *)

Module Demo.

Definition quote : string := String (ascii_of_nat 34) EmptyString.

(** [json.dumps] with its default separators, for values whose strings
    need no escaping. *)
Fixpoint dumps_text (v : pyval) : string :=
  match v with
  | PNone => "null"
  | PBool true => "true"
  | PBool false => "false"
  | PInt n => pretty n
  | PFloat lit => lit
  | PStr s => quote ++ s ++ quote
  | PList items => "[" ++ String.concat ", " (List.map dumps_text items) ++ "]"
  | PDict items =>
      "{" ++ String.concat ", "
               (List.map (fun kv => quote ++ fst kv ++ quote ++ ": " ++ dumps_text (snd kv)) items)
          ++ "}"
  | PModel cls _ => "<" ++ cls ++ ">"
  end.

(** A model instance is not JSON serializable. *)
Fixpoint serializable (v : pyval) : bool :=
  match v with
  | PList items => forallb serializable items
  | PDict items => forallb (fun kv => serializable (snd kv)) items
  | PModel _ _ => false
  | _ => true
  end.

Definition dumps (v : pyval) : outcome string :=
  if serializable v then Ok (dumps_text v)
  else Raise (TypeError "Object is not JSON serializable").

Definition loads (s : string) : outcome pyval :=
  if String.eqb s "{}" then Ok (PDict [])
  else if String.eqb s "[]" then Ok (PList [])
  else if String.eqb s "null" then Ok PNone
  else Raise (JSONDecodeError "Expecting value: line 1 column 1 (char 0)").

(** The environment in which the call to the model ends as [reply]. *)
Definition with_reply (reply : outcome pyval) : Env :=
  {| json_loads := loads;
     json_dumps := dumps;
     parse_with_fallback := fun _ cls defaults => Ok (PModel (cls_name cls) defaults);
     invoke_intelligence := fun _ _ => reply;
     setup_dacp_logging := fun _ => Ok tt;
     agent_base := [];
     get_template := fun name => Ok name;
     render := fun template _ => Ok ("prompt of " ++ template);
     behavioural_contract := fun _ _ c => c;
     getenv := fun _ => None;
     mkdir_parent := fun _ => Ok tt |}.

(** The model replies with the text of an empty JSON object. *)
Definition env : Env := with_reply (Ok (PStr "{}")).

(** The model replies with text that is no JSON. *)
Definition garbled : Env := with_reply (Ok (PStr "I am sorry, I cannot help with that")).

(** The call to the model is interrupted from the keyboard. *)
Definition interrupted : Env := with_reply (Raise KeyboardInterrupt).

Definition analyzer : object := Analyzer.agent env "analyzer" 2.
Definition collector : object := Collector.agent env "collector" 2.
Definition remediator : object := Remediator.agent env "remediator" 2.

End Demo.

(** ** Strict JSON

    The grammar of RFC 8259, which is what "strict JSON" names: a value is
    an object, an array, a string, a number or one of [true], [false] and
    [null], with white space around it.  The constants [NaN], [Infinity]
    and [-Infinity], which Python's [json.loads] reads as floats, are not
    in it.  Each function takes the text left to read and returns the text
    after what it has read. *)

Module Json.

Definition quote_mark : ascii := ascii_of_nat 34.

Definition is_ws (c : ascii) : bool :=
  existsb (Ascii.eqb c) [" "%char; ascii_of_nat 9; ascii_of_nat 10; ascii_of_nat 13].

Definition is_digit (c : ascii) : bool :=
  let n := nat_of_ascii c in ((48 <=? n) && (n <=? 57))%nat.

Definition is_hex (c : ascii) : bool :=
  let n := nat_of_ascii c in
  (is_digit c || ((65 <=? n) && (n <=? 70)) || ((97 <=? n) && (n <=? 102)))%nat.

Fixpoint skip_ws (s : string) : string :=
  match s with
  | String c r => if is_ws c then skip_ws r else s
  | EmptyString => s
  end.

Fixpoint skip_digits (s : string) : string :=
  match s with
  | String c r => if is_digit c then skip_digits r else s
  | EmptyString => s
  end.

(** One digit or more. *)
Definition digits (s : string) : option string :=
  match s with
  | String c r => if is_digit c then Some (skip_digits r) else None
  | EmptyString => None
  end.

(** The text after [word], when the text starts with it. *)
Fixpoint after (word s : string) : option string :=
  match word with
  | EmptyString => Some s
  | String c w =>
      match s with
      | String d r => if Ascii.eqb c d then after w r else None
      | EmptyString => None
      end
  end.

(** A number: an optional minus sign; a zero, or digits that do not start
    with a zero; an optional fraction, a point and digits; an optional
    exponent, [e] or [E], an optional sign and digits. *)
Definition number (s : string) : option string :=
  let unsigned := match s with String "-" r => r | _ => s end in
  match (match unsigned with String "0" r => Some r | _ => digits unsigned end) with
  | None => None
  | Some r =>
      match (match r with String "." r' => digits r' | _ => Some r end) with
      | None => None
      | Some r =>
          match r with
          | String c r' =>
              if Ascii.eqb c "e" || Ascii.eqb c "E"
              then digits (match r' with
                           | String sign r'' =>
                               if Ascii.eqb sign "+" || Ascii.eqb sign "-" then r'' else r'
                           | EmptyString => r'
                           end)
              else Some r
          | EmptyString => Some r
          end
      end
  end.

(** The characters of a string after its opening quotation mark, up to
    and with the closing one: no control character, and a backslash only
    in one of the escapes. *)
Fixpoint chars (s : string) : option string :=
  match s with
  | EmptyString => None
  | String c r =>
      if Ascii.eqb c quote_mark then Some r
      else if Ascii.eqb c "\" then
        match r with
        | String e r' =>
            if existsb (Ascii.eqb e)
                 [quote_mark; "\"%char; "/"%char; "b"%char; "f"%char; "n"%char;
                  "r"%char; "t"%char]
            then chars r'
            else if Ascii.eqb e "u" then
              match r' with
              | String h1 (String h2 (String h3 (String h4 r''))) =>
                  if is_hex h1 && is_hex h2 && is_hex h3 && is_hex h4
                  then chars r'' else None
              | _ => None
              end
            else None
        | EmptyString => None
        end
      else if (nat_of_ascii c <? 32)%nat then None
      else chars r
  end.

(** A value; the elements of an array after one element; the members of an
    object.  [fuel] bounds the depth of the calls, which the length of the
    text bounds. *)
Fixpoint value (fuel : nat) (s : string) : option string :=
  match fuel with
  | O => None
  | S fuel' =>
      match skip_ws s with
      | EmptyString => None
      | String c r =>
          if Ascii.eqb c "{" then
            match skip_ws r with
            | String "}" r' => Some r'
            | _ => members fuel' r
            end
          else if Ascii.eqb c "[" then
            match skip_ws r with
            | String "]" r' => Some r'
            | _ =>
                match value fuel' r with
                | Some r' => elements fuel' r'
                | None => None
                end
            end
          else if Ascii.eqb c quote_mark then chars r
          else if Ascii.eqb c "t" then after "rue" r
          else if Ascii.eqb c "f" then after "alse" r
          else if Ascii.eqb c "n" then after "ull" r
          else number (String c r)
      end
  end
with elements (fuel : nat) (s : string) : option string :=
  match fuel with
  | O => None
  | S fuel' =>
      match skip_ws s with
      | EmptyString => None
      | String c r =>
          if Ascii.eqb c "," then
            match value fuel' r with
            | Some r' => elements fuel' r'
            | None => None
            end
          else if Ascii.eqb c "]" then Some r
          else None
      end
  end
with members (fuel : nat) (s : string) : option string :=
  match fuel with
  | O => None
  | S fuel' =>
      match skip_ws s with
      | EmptyString => None
      | String c r =>
          if Ascii.eqb c quote_mark then
            match chars r with
            | None => None
            | Some r1 =>
                match skip_ws r1 with
                | EmptyString => None
                | String c2 r2 =>
                    if Ascii.eqb c2 ":" then
                      match value fuel' r2 with
                      | None => None
                      | Some r3 =>
                          match skip_ws r3 with
                          | EmptyString => None
                          | String c3 r4 =>
                              if Ascii.eqb c3 "," then members fuel' r4
                              else if Ascii.eqb c3 "}" then Some r4
                              else None
                          end
                      end
                    else None
                end
            end
          else None
      end
  end.

(** The text is one JSON value. *)
Definition strict (s : string) : bool :=
  match value (2 * String.length s + 2) s with
  | Some r => match skip_ws r with EmptyString => true | String _ _ => false end
  | None => false
  end.


End Json.

(** ** Vocabulary of the properties *)

Module Vocabulary.
Import Template.

(** The three [handle_message] methods, each with what it does with the
    result of the handler. *)
Definition agents (E : Env)
    : list ((object -> gmap string pyval -> M pyval) * (pyval -> M pyval)) :=
  [ (Analyzer.handle_message, Analyzer.finish);
    (Collector.handle_message E, Collector.finish E);
    (Remediator.handle_message, Remediator.finish) ].

(** The three [handle_message] methods, by agent. *)
Definition handlers (E : Env) : list (object -> gmap string pyval -> M pyval) :=
  List.map fst (agents E).

(** The six parse functions, each with the model class it returns. *)
Definition parse_functions (E : Env) : list (model_class * (pyval -> M pyval)) :=
  [ (Analyze_ErrorOutput, Analyzer.parse_analyze_error_output E);
    (Generate_Pr_CommentOutput, Analyzer.parse_generate_pr_comment_output E);
    (Suggest_Workflow_ImprovementsOutput,
      Analyzer.parse_suggest_workflow_improvements_output E);
    (Collect_ErrorsOutput, Collector.parse_collect_errors_output E);
    (Extract_Build_InfoOutput, Collector.parse_extract_build_info_output E);
    (Propose_RemediationOutput, Remediator.parse_propose_remediation_output E) ].


(** The text of the error envelope that [handle_message] returns for an
    exception raised under its [try]. *)
Definition caught (task : string) (e : exn) : string :=
  (if isinstance_exn e "TypeError"
   then "Invalid parameters for task " else "Error executing task ")
  ++ task ++ ": " ++ exn_msg e.

(** Character-wise replacement, the reading of [replace] for one-character
    arguments. *)
Fixpoint map_chars (f : ascii -> ascii) (s : string) : string :=
  match s with
  | EmptyString => EmptyString
  | String c s' => String (f c) (map_chars f s')
  end.

(** The keyword arguments name a parameter the method does not declare. *)
Definition has_unexpected_key (params : list (string * option pyval))
    (kwargs : gmap string pyval) : Prop :=
  exists k, is_Some (kwargs !! k) /\ ~ In k (List.map fst params).

(** The keyword arguments omit a declared parameter that has no default. *)
Definition omits_required (params : list (string * option pyval))
    (kwargs : gmap string pyval) : Prop :=
  exists p, In (p, None) params /\ kwargs !! p = None.

(** A message for the remediator's task [propose-remediation]. *)
Definition propose_remediation_message : gmap string pyval :=
  <["task" := PStr "propose-remediation"]>
    (<["analysis_result" := PDict [("root_cause", PStr "OOM")]]>
       (<["raw_logs" := PStr "Killed"]>
          (<["repository" := PStr "octo/app"]>
             (<["branch" := PStr "main"]>
                {[ "commit_sha" := PStr "0123456789abcdef0123456789abcdef01234567" ]})))).

(** The same with a parameter that [propose_remediation] does not declare. *)
Definition overfull_message : gmap string pyval :=
  <["dry_run" := PBool true]> propose_remediation_message.

(** A message for the collector's task [extract-build-info]. *)
Definition extract_build_info_message : gmap string pyval :=
  <["task" := PStr "extract-build-info"]>
    (<["raw_logs" := PStr "npm ERR! code ELIFECYCLE"]>
       {[ "build_system" := PStr "npm" ]}).

(** An instance of [Propose_RemediationOutput]. *)
Definition a_remediation : pyval :=
  PModel "Propose_RemediationOutput"
    [ ("proposed_diff", PStr "--- a/app.py");
      ("files_to_change", PList [PStr "app.py"]);
      ("rationale", PStr "the worker ran out of memory") ].

(** A message for the analyzer's task [analyze-error]. *)
Definition analyze_error_message (error_summary job_context log_statistics
    additional_context : pyval) : gmap string pyval :=
  <["task" := PStr "analyze-error"]>
    (<["error_summary" := error_summary]>
       (<["job_context" := job_context]>
          (<["log_statistics" := log_statistics]>
             {[ "additional_context" := additional_context ]}))).

End Vocabulary.
Export Vocabulary.


(** ** Vocabulary of the further properties *)

Module Coverage.
Import Template.

(** The callable an event names. *)
Definition callee (ev : event) : string :=
  match ev with
  | Enter c _ => c
  | Ext c _ => c
  end.

(** The keyword arguments of [template.render] in a task function, with
    the memory summary as the disabled memory configuration leaves it. *)
Definition render_context (output_format : string) (input_dict : list (string * pyval))
    : list (string * pyval) :=
  ([ ("input", PDict input_dict);
     ("memory_summary", PStr "");
     ("output_format", PStr output_format);
     ("memory_config", PDict memory_config) ] ++ input_dict)%list.

(** The agents' configurations, each with the environment variable that
    overrides its log file and with the log file it names. *)
Definition logging_setups : list (pyval * (string * string)) :=
  [ (Analyzer.config, ("DACP_LOG_FILE_ANALYZER", "./logs/github-actions-analyzer.log"));
    (Collector.config, ("DACP_LOG_FILE_COLLECTOR", "./logs/github-actions-collector.log"));
    (Remediator.config,
      ("DACP_LOG_FILE_REMEDIATOR", "./logs/github-actions-remediator.log")) ].

(** What [setup_logging] comes to for those configurations, written out:
    the three settings from the environment or from the configuration, the
    directory of the log file made unless the log file is empty, and
    dacp's logging set up. *)
Definition configure_logging (E : Env) (log_file_variable log_file_default : string)
    : M pyval :=
  let level := default "INFO" (getenv E "DACP_LOG_LEVEL") in
  let format_style := default "emoji" (getenv E "DACP_LOG_STYLE") in
  let log_file := default log_file_default (getenv E log_file_variable) in
  let kwargs :=
    [ ("level", PStr level);
      ("format_style", PStr format_style);
      ("include_timestamp", PBool true);
      ("log_file", PStr log_file) ] in
  (if String.eqb log_file "" then ret tt
   else ext "Path.parent.mkdir" [PStr log_file] (mkdir_parent E log_file)) ;;;
  ext "dacp.setup_dacp_logging" [PDict kwargs] (setup_dacp_logging E kwargs) ;;;
  ret PNone.

(** The parameters of a message for the remediator's task. *)
Definition remediation_parameters : gmap string pyval :=
  <["analysis_result" := PDict [("root_cause", PStr "OOM")]]>
    (<["raw_logs" := PStr "Killed"]>
       (<["repository" := PStr "octo/app"]>
          (<["branch" := PStr "main"]>
             {[ "commit_sha" := PStr "0123456789abcdef0123456789abcdef01234567" ]}))).

(** What jinja2 raises for a template it does not find. *)
Definition TemplateNotFound (name : string) : exn :=
  Exn [ "TemplateNotFound"; "OSError"; "LookupError"; "TemplateError"; "Exception";
        "BaseException"; "object" ] name.

(** Concrete environments: [Demo.env] with another template loader,
    renderer and process environment. *)
Definition environment (loader : string -> outcome string)
    (renderer : string -> list (string * pyval) -> outcome string)
    (variables : string -> option string) : Env :=
  {| json_loads := Demo.loads;
     json_dumps := Demo.dumps;
     parse_with_fallback := fun _ cls defaults => Ok (PModel (cls_name cls) defaults);
     invoke_intelligence := fun _ _ => Ok (PStr "{}");
     setup_dacp_logging := fun _ => Ok tt;
     agent_base := [];
     get_template := loader;
     render := renderer;
     behavioural_contract := fun _ _ c => c;
     getenv := variables;
     mkdir_parent := fun _ => Ok tt |}.

(** Only the default template is on disk. *)
Definition default_template_only : Env :=
  environment
    (fun name => if String.eqb name "agent_prompt.jinja2" then Ok name
                 else Raise (FileNotFoundError name))
    (fun template _ => Ok ("prompt of " ++ template))
    (fun _ => None).

(** The loader reports a missing template the way jinja2 does. *)
Definition template_not_found : Env :=
  environment (fun name => Raise (TemplateNotFound name))
    (fun template _ => Ok ("prompt of " ++ template))
    (fun _ => None).

(** Rendering fails with a TypeError. *)
Definition render_type_error : Env :=
  environment (fun name => Ok name)
    (fun _ _ => Raise (TypeError "unsupported operand type(s)"))
    (fun _ => None).

(** The log level is set in the environment and the log file is set to the
    empty string. *)
Definition quiet_environment : Env :=
  environment (fun name => Ok name)
    (fun template _ => Ok ("prompt of " ++ template))
    (fun name => if String.eqb name "DACP_LOG_LEVEL" then Some "DEBUG"
                 else if String.eqb name "DACP_LOG_FILE_ANALYZER" then Some ""
                 else None).

(** The six task functions, each by its name, as a function of the list of
    its arguments before [memory_summary] and of the memory summary. *)
Definition task_functions (E : Env) : list (string * (list pyval -> pyval -> M pyval)) :=
  let a (args : list pyval) (i : nat) := nth i args PNone in
  [ ("analyze_error",
      fun args m => Analyzer.analyze_error E (a args 0%nat) (a args 1%nat) (a args 2%nat)
                      (a args 3%nat) m);
    ("generate_pr_comment",
      fun args m => Analyzer.generate_pr_comment E (a args 0%nat) (a args 1%nat)
                      (a args 2%nat) (a args 3%nat) (a args 4%nat) (a args 5%nat)
                      (a args 6%nat) m);
    ("suggest_workflow_improvements",
      fun args m => Analyzer.suggest_workflow_improvements E (a args 0%nat) (a args 1%nat)
                      (a args 2%nat) (a args 3%nat) m);
    ("collect_errors",
      fun args m => Collector.collect_errors E (a args 0%nat) (a args 1%nat) (a args 2%nat)
                      (a args 3%nat) (a args 4%nat) (a args 5%nat) (a args 6%nat)
                      (a args 7%nat) m);
    ("extract_build_info",
      fun args m => Collector.extract_build_info E (a args 0%nat) (a args 1%nat) m);
    ("propose_remediation",
      fun args m => Remediator.propose_remediation E (a args 0%nat) (a args 1%nat)
                      (a args 2%nat) (a args 3%nat) (a args 4%nat) m) ].

(** The names of the collaborators that the events of a trace name. *)
Definition callees (evs : trace) : list string := List.map callee evs.

End Coverage.
Export Coverage.

(** * Properties *)

(** ** Hyphen normalisation *)

Section Replace.

Lemma replace_one_char (a b : ascii) (s : string) :
  replace s (String a EmptyString) (String b EmptyString)
  = map_chars (fun c => if Ascii.eqb a c then b else c) s.
Proof.
  unfold replace. induction s as [|c s IH]; simpl; [reflexivity|].
  destruct (Ascii.eqb a c); simpl; now rewrite IH.
Qed.

Lemma map_chars_length (f : ascii -> ascii) (s : string) :
  String.length (map_chars f s) = String.length s.
Proof. induction s; simpl; congruence. Qed.

Lemma map_chars_get (f : ascii -> ascii) (s : string) (i : nat) :
  String.get i (map_chars f s) = option_map f (String.get i s).
Proof.
  revert i. induction s as [|c s IH]; intros [|i]; simpl; auto.
Qed.

(** The method name of a task: it is as long as the task, no hyphen is
    left in it, and it differs from the task at the hyphens only, which
    have become underscores. *)
Lemma method_name_chars (task : string) (i : nat) :
  String.length (replace task "-" "_") = String.length task
  /\ String.get i (replace task "-" "_") <> Some "-"%char
  /\ String.get i (replace task "-" "_")
     = option_map (fun c => if Ascii.eqb "-" c then "_"%char else c) (String.get i task).
Proof.
  rewrite replace_one_char, map_chars_length, map_chars_get.
  split; [reflexivity|]. split; [|reflexivity].
  destruct (String.get i task) as [c|]; cbn [option_map]; [|congruence].
  destruct (Ascii.eqb "-" c) eqn:Hc; [congruence|].
  intros [= ->]. now rewrite Ascii.eqb_refl in Hc.
Qed.

End Replace.

Example replace_hyphenated : replace "analyze-error" "-" "_" = "analyze_error".
Proof. reflexivity. Qed.

Example replace_longer_pattern : replace "a--b-" "--" "x" = "axb-".
Proof. reflexivity. Qed.

(** ** Outcomes of computations *)

Section Outcomes.

Context {A B : Type}.

Lemma bind_ok (c : M A) (k : A -> M B) (b : B) (tr tr' : trace) :
  bind c k tr = (Ok b, tr') ->
  exists a tr1, c tr = (Ok a, tr1) /\ k a tr1 = (Ok b, tr').
Proof.
  unfold bind. destruct (c tr) as [[a|e] tr1]; [eauto|discriminate].
Qed.

Lemma try_except_ok (c : M A) (cls : string) (h : exn -> M A) (a : A) (tr tr' : trace) :
  try_except c cls h tr = (Ok a, tr') ->
  c tr = (Ok a, tr')
  \/ exists e tr1, c tr = (Raise e, tr1) /\ h e tr1 = (Ok a, tr').
Proof.
  unfold try_except. destruct (c tr) as [[a'|e] tr1]; [now left|].
  destruct (isinstance_exn e cls); [eauto|discriminate].
Qed.

Lemma ext_ok (callee : string) (args : list pyval) (o : outcome A) (a : A)
    (tr tr' : trace) :
  ext callee args o tr = (Ok a, tr') -> o = Ok a.
Proof. unfold ext. congruence. Qed.

Lemma raise_not_ok (e : exn) (a : A) (tr tr' : trace) :
  raise e tr <> (Ok a, tr').
Proof. unfold raise. congruence. Qed.

End Outcomes.

(** ** Keyword binding *)

Section Binding.

Variables (qualname : string) (params : list (string * option pyval)).
Variable kwargs : gmap string pyval.

Lemma unexpected_spec (k : string) :
  In k (unexpected params kwargs)
  <-> is_Some (kwargs !! k) /\ ~ In k (List.map fst params).
Proof.
  unfold unexpected. rewrite filter_In, in_map_iff, negb_true_iff.
  split.
  - intros [[[k' v] [<- Hin]] Hex]. simpl in *. split.
    + apply list_elem_of_In, elem_of_map_to_list in Hin. eauto.
    + intros Hk. apply not_true_iff_false in Hex. apply Hex.
      apply existsb_exists. exists k'. split; [assumption|apply String.eqb_refl].
  - intros [[v Hv] Hk]. split.
    + exists (k, v). split; [reflexivity|].
      now apply list_elem_of_In, elem_of_map_to_list.
    + apply not_true_iff_false. intros Hex.
      apply existsb_exists in Hex as [k' [Hin Heq]].
      apply String.eqb_eq in Heq. now subst.
Qed.

Lemma missing_spec (p : string) :
  In p (missing params kwargs) <-> In (p, None) params /\ kwargs !! p = None.
Proof.
  unfold missing. rewrite in_map_iff. split.
  - intros [[p' d] [<- Hin]]. apply filter_In in Hin as [Hin Hf]. simpl in *.
    destruct d; [discriminate|]. destruct (kwargs !! p') eqn:Hk; [discriminate|].
    now split.
  - intros [Hin Hk]. exists (p, None). split; [reflexivity|].
    apply filter_In. split; [assumption|]. simpl. now rewrite Hk.
Qed.

(** Binding fails exactly on an unexpected key or a missing parameter. *)
Lemma bind_arguments_fails :
  has_unexpected_key params kwargs \/ omits_required params kwargs
  <-> exists why, bind_arguments qualname params kwargs = inl why.
Proof.
  unfold bind_arguments, has_unexpected_key, omits_required. split.
  - intros H.
    destruct (unexpected params kwargs) as [|k ks] eqn:Hu; [|eauto].
    destruct (missing params kwargs) as [|p ps] eqn:Hmiss; [|eauto].
    exfalso. destruct H as [[k Hk]|[p Hp]].
    + apply unexpected_spec in Hk. now rewrite Hu in Hk.
    + apply missing_spec in Hp. now rewrite Hmiss in Hp.
  - intros [why H].
    destruct (unexpected params kwargs) as [|k ks] eqn:Hu.
    + destruct (missing params kwargs) as [|p ps] eqn:Hmiss; [discriminate|].
      right. exists p. apply missing_spec. rewrite Hmiss. now left.
    + left. exists k. apply unexpected_spec. rewrite Hu. now left.
Qed.

(** A call whose binding fails raises TypeError and leaves no trace: the
    body has not run. *)
Lemma call_unbound (body : gmap string pyval -> M pyval) (why : string) (tr : trace) :
  bind_arguments qualname params kwargs = inl why ->
  call (AMethod qualname params body) kwargs tr = (Raise (TypeError why), tr).
Proof. intros H. unfold call. now rewrite H. Qed.

(** A call whose binding succeeds enters the body with the bound
    arguments. *)
Lemma call_bound (body : gmap string pyval -> M pyval) (args : gmap string pyval)
    (tr : trace) :
  bind_arguments qualname params kwargs = inr args ->
  call (AMethod qualname params body) kwargs tr
  = body args (tr ++ [Enter qualname args])%list.
Proof. intros H. unfold call. now rewrite H. Qed.

End Binding.

(** ** Dispatch *)

Section Dispatch.

Import Template.

Variable E : Env.

Lemma agents_dispatch (h : object -> gmap string pyval -> M pyval)
    (finish : pyval -> M pyval) :
  In (h, finish) (agents E) -> h = dispatch finish.
Proof.
  intros [[= <- <-]|[[= <- <-]|[[= <- <-]|[]]]]; reflexivity.
Qed.

Lemma handlers_dispatch (h : object -> gmap string pyval -> M pyval) :
  In h (handlers E) -> exists finish, h = dispatch finish.
Proof.
  intros [<-|[<-|[<-|[]]]]; eexists; reflexivity.
Qed.

Lemma truthy_str (t : string) : truthy (PStr t) = true <-> t <> "".
Proof.
  simpl. destruct (String.eqb_spec t ""); simpl; split; congruence.
Qed.

(** A falsy task: the reply is decided before anything is looked up. *)
Lemma dispatch_falsy (finish : pyval -> M pyval) (self : object)
    (message : gmap string pyval) (tr : trace) :
  truthy (default PNone (message !! "task")) = false ->
  dispatch finish self message tr
  = (Ok (error_envelope "Missing required field: task"), tr).
Proof.
  intros H. unfold dispatch. now rewrite H.
Qed.

(** A task that is truthy and no string: [task.replace] raises before the
    [try] is entered, and the exception leaves [handle_message]. *)
Lemma dispatch_non_string (finish : pyval -> M pyval) (self : object)
    (message : gmap string pyval) (v : pyval) (tr : trace) :
  message !! "task" = Some v ->
  truthy v = true ->
  is_str v = false ->
  dispatch finish self message tr
  = (Raise (AttributeError ("'" ++ type_name v ++ "' object has no attribute 'replace'")),
     tr).
Proof.
  intros Hm Hv Hs. unfold dispatch. rewrite Hm.
  change (default PNone (Some v)) with v. rewrite Hv.
  destruct v; try discriminate; reflexivity.
Qed.

(** A task that is a non-empty string: the reply is the attribute lookup's. *)
Lemma dispatch_str (finish : pyval -> M pyval) (self : object)
    (message : gmap string pyval) (t : string) :
  message !! "task" = Some (PStr t) -> t <> "" ->
  dispatch finish self message
  = match getattr self (replace t "-" "_") with
    | None => ret (error_envelope ("Unknown task: " ++ t))
    | Some method =>
        try_clauses
          (result <- call method (delete "task" message) ;; finish result)
          (except_clauses t)
    end.
Proof.
  intros Hm Ht. unfold dispatch. rewrite Hm. simpl default.
  apply truthy_str in Ht. now rewrite Ht.
Qed.

Lemma dispatch_raise (finish : pyval -> M pyval) (self : object)
    (message : gmap string pyval) (t : string) (method : attr)
    (e : exn) (tr tr' : trace) :
  message !! "task" = Some (PStr t) -> t <> "" ->
  getattr self (replace t "-" "_") = Some method ->
  call method (delete "task" message) tr = (Raise e, tr') ->
  isinstance_exn e "Exception" = true ->
  dispatch finish self message tr = (Ok (error_envelope (caught t e)), tr').
Proof.
  intros Hm Ht Hattr Hcall Hexc.
  rewrite (dispatch_str _ _ _ _ Hm Ht), Hattr.
  unfold try_clauses, bind, caught. rewrite Hcall. simpl.
  destruct (isinstance_exn e "TypeError"); simpl; [reflexivity|].
  now rewrite Hexc.
Qed.

(** Once the task is a string, no instance of [Exception] leaves
    [handle_message]. *)
Lemma dispatch_raises_no_exception (finish : pyval -> M pyval) (self : object)
    (message : gmap string pyval) (t : string) (e : exn) (tr tr' : trace) :
  message !! "task" = Some (PStr t) ->
  dispatch finish self message tr = (Raise e, tr') ->
  isinstance_exn e "Exception" = false.
Proof.
  intros Hm. destruct (String.eqb_spec t "") as [->|Ht].
  - rewrite dispatch_falsy by now rewrite Hm. discriminate.
  - rewrite (dispatch_str _ _ _ _ Hm Ht).
    destruct (getattr self (replace t "-" "_")) as [method|]; [|discriminate].
    unfold try_clauses.
    destruct ((result <- call method (delete "task" message) ;; finish result) tr)
      as [[a|e0] tr1]; [discriminate|].
    simpl. destruct (isinstance_exn e0 "TypeError"); [discriminate|].
    destruct (isinstance_exn e0 "Exception") eqn:Hexc; [discriminate|].
    now intros [= <- _].
Qed.

(** C10. A message whose ['task'] is present and falsy gets the reply
    [{"error": "Missing required field: task"}] from every agent, which is
    not an Unknown-task reply; the reply does not depend on the agent's
    attributes and the trace is unchanged: nothing was looked up or
    invoked. *)
Theorem falsy_task_is_missing_field
    (h : object -> gmap string pyval -> M pyval) (self : object)
    (message : gmap string pyval) (v : pyval) (tr : trace) :
  In h (handlers E) ->
  message !! "task" = Some v ->
  truthy v = false ->
  h self message tr = (Ok (error_envelope "Missing required field: task"), tr)
  /\ (forall t, error_envelope "Missing required field: task"
                <> error_envelope ("Unknown task: " ++ t)).
Proof.
  intros Hh Hm Hv. apply handlers_dispatch in Hh as [finish ->]. split.
  - apply dispatch_falsy. now rewrite Hm.
  - intros t. unfold error_envelope. cbn [String.append]. intros H. discriminate H.
Qed.

(** C2, as amended. A message whose task is a non-empty string that,
    hyphens normalised, names no attribute of the agent object gets the
    reply [{"error": "Unknown task: <task>"}], and the trace is unchanged:
    nothing was invoked. *)
Theorem unknown_attribute_is_unknown_task
    (h : object -> gmap string pyval -> M pyval) (self : object)
    (message : gmap string pyval) (t : string) (tr : trace) :
  In h (handlers E) ->
  message !! "task" = Some (PStr t) ->
  t <> "" ->
  getattr self (replace t "-" "_") = None ->
  h self message tr = (Ok (error_envelope ("Unknown task: " ++ t)), tr).
Proof.
  intros Hh Hm Ht Hattr. apply handlers_dispatch in Hh as [finish ->].
  now rewrite (dispatch_str _ _ _ _ Hm Ht), Hattr.
Qed.

(** C1, as amended. When the task of a message resolves to an attribute
    of the agent and the call of that attribute raises an exception that is
    an instance of [Exception] (whether from binding the parameters, from
    the handler or from the parse function it calls), [handle_message]
    returns a mapping whose only key is ['error'], with a text that
    describes the failure, and raises nothing. *)
Theorem handler_exception_becomes_error_envelope
    (h : object -> gmap string pyval -> M pyval) (self : object)
    (message : gmap string pyval) (t : string) (method : attr)
    (e : exn) (tr tr' : trace) :
  In h (handlers E) ->
  message !! "task" = Some (PStr t) ->
  t <> "" ->
  getattr self (replace t "-" "_") = Some method ->
  call method (delete "task" message) tr = (Raise e, tr') ->
  isinstance_exn e "Exception" = true ->
  h self message tr = (Ok (PDict [("error", PStr (caught t e))]), tr')
  /\ has_key "error" (PDict [("error", PStr (caught t e))]) = true.
Proof.
  intros Hh Hm Ht Hattr Hcall Hexc. apply handlers_dispatch in Hh as [finish ->].
  split; [|reflexivity].
  now apply (dispatch_raise finish self message t method e tr tr').
Qed.

(** C6. When the task resolves to a method and the parameters of the
    message contain a key that the method does not declare, or omit a
    declared parameter that has no default, [handle_message] returns the
    reply [{"error": "Invalid parameters for task <task>: ..."}], with the
    interpreter's reason, and the trace is unchanged: the body of the
    method has not run. *)
Theorem invalid_parameters_are_rejected
    (h : object -> gmap string pyval -> M pyval) (self : object)
    (message : gmap string pyval) (t qualname : string)
    (params : list (string * option pyval)) (body : gmap string pyval -> M pyval)
    (tr : trace) :
  In h (handlers E) ->
  message !! "task" = Some (PStr t) ->
  t <> "" ->
  getattr self (replace t "-" "_") = Some (AMethod qualname params body) ->
  has_unexpected_key params (delete "task" message)
  \/ omits_required params (delete "task" message) ->
  exists why,
    bind_arguments qualname params (delete "task" message) = inl why
    /\ h self message tr
       = (Ok (error_envelope ("Invalid parameters for task " ++ t ++ ": " ++ why)), tr).
Proof.
  intros Hh Hm Ht Hattr Hbad.
  apply (bind_arguments_fails qualname) in Hbad as [why Hwhy].
  exists why. split; [assumption|].
  apply handlers_dispatch in Hh as [finish ->].
  apply (dispatch_raise finish self message t (AMethod qualname params body)
           (TypeError why) tr tr); auto using call_unbound.
Qed.

(** C5. For every task, with hyphens or without, [handle_message] looks
    up the attribute whose name is the task with every hyphen replaced by
    an underscore, and when that is a method to which the parameters of
    the message bind, it runs the body of that method on them; the reply is
    made from the body's outcome.  In particular, a message with the task
    [analyze-error] and the four parameters of the analyzer's
    [analyze_error] runs that method, which calls the task function
    [analyze_error]. *)
Theorem hyphenated_task_runs_underscored_method :
  (forall (h : object -> gmap string pyval -> M pyval) (finish : pyval -> M pyval)
          (self : object) (message : gmap string pyval) (t qualname : string)
          (params : list (string * option pyval))
          (body : gmap string pyval -> M pyval)
          (args : gmap string pyval) (tr : trace),
      In (h, finish) (agents E) ->
      message !! "task" = Some (PStr t) ->
      t <> "" ->
      getattr self (replace t "-" "_") = Some (AMethod qualname params body) ->
      bind_arguments qualname params (delete "task" message) = inr args ->
      (forall i, String.get i (replace t "-" "_") <> Some "-"%char
                 /\ String.get i (replace t "-" "_")
                    = option_map (fun c => if Ascii.eqb "-" c then "_"%char else c)
                        (String.get i t))
      /\ h self message tr
         = try_clauses (result <- body args ;; finish result) (except_clauses t)
             (tr ++ [Enter qualname args])%list)
  /\ (forall (agent_id : string) (depth : nat)
             (error_summary job_context log_statistics additional_context : pyval)
             (tr : trace),
        let args : gmap string pyval :=
          delete "task" (analyze_error_message error_summary job_context
                           log_statistics additional_context) in
        replace "analyze-error" "-" "_" = "analyze_error"
        /\ Analyzer.handle_message (Analyzer.agent E agent_id depth)
             (analyze_error_message error_summary job_context log_statistics
                additional_context) tr
           = try_clauses
               (result <- (memory_summary <- get_memory_summary E ;;
                           Analyzer.analyze_error E error_summary job_context
                             log_statistics additional_context memory_summary) ;;
                Analyzer.finish result)
               (except_clauses "analyze-error")
               (tr ++ [Enter "GithubActionsErrorAnalyzerAgent.analyze_error" args])%list).
Proof.
  split.
  - intros h finish self message t qualname params body args tr Hh Hm Ht Hattr Hbind.
    split; [intros i; apply method_name_chars|].
    apply agents_dispatch in Hh as ->.
    rewrite (dispatch_str _ _ _ _ Hm Ht), Hattr.
    unfold try_clauses, bind.
    now rewrite (call_bound _ _ _ _ _ _ Hbind).
  - intros agent_id depth es jc ls ac tr args. split; [reflexivity|].
    unfold Analyzer.handle_message.
    rewrite (dispatch_str _ _ _ "analyze-error");
      [|reflexivity|discriminate].
    assert (Hattr : getattr (Analyzer.agent E agent_id depth) "analyze_error"
                    = Some (Analyzer.analyze_error_method E)).
    { destruct depth; reflexivity. }
    change (replace "analyze-error" "-" "_") with "analyze_error".
    rewrite Hattr. unfold Analyzer.analyze_error_method, try_clauses, bind.
    rewrite (call_bound _ _ _ _ args); [reflexivity|].
    vm_compute. reflexivity.
Qed.

End Dispatch.

(** ** The dispatch properties on concrete messages *)

Section DispatchExamples.

Import Template.

Lemma falsy_task_witness :
  In Analyzer.handle_message (handlers Demo.env)
  /\ ({[ "task" := PStr "" ]} : gmap string pyval) !! "task" = Some (PStr "")
  /\ truthy (PStr "") = false
  /\ Analyzer.handle_message Demo.analyzer {[ "task" := PStr "" ]} []
     = (Ok (error_envelope "Missing required field: task"), []).
Proof.
  assert (H1 : In Analyzer.handle_message (handlers Demo.env)) by (left; reflexivity).
  assert (H2 : ({[ "task" := PStr "" ]} : gmap string pyval) !! "task" = Some (PStr ""))
    by reflexivity.
  assert (H3 : truthy (PStr "") = false) by reflexivity.
  exact (conj H1 (conj H2 (conj H3
           (proj1 (falsy_task_is_missing_field Demo.env _ Demo.analyzer _ _ [] H1 H2 H3))))).
Defined.

Lemma unknown_attribute_witness :
  In Analyzer.handle_message (handlers Demo.env)
  /\ ({[ "task" := PStr "deploy-fix" ]} : gmap string pyval) !! "task"
     = Some (PStr "deploy-fix")
  /\ "deploy-fix" <> ""
  /\ getattr Demo.analyzer (replace "deploy-fix" "-" "_") = None
  /\ Analyzer.handle_message Demo.analyzer {[ "task" := PStr "deploy-fix" ]} []
     = (Ok (error_envelope "Unknown task: deploy-fix"), []).
Proof.
  assert (H1 : In Analyzer.handle_message (handlers Demo.env)) by (left; reflexivity).
  assert (H2 : ({[ "task" := PStr "deploy-fix" ]} : gmap string pyval) !! "task"
               = Some (PStr "deploy-fix")) by reflexivity.
  assert (H3 : "deploy-fix" <> "") by discriminate.
  assert (H4 : getattr Demo.analyzer (replace "deploy-fix" "-" "_") = None) by reflexivity.
  exact (conj H1 (conj H2 (conj H3 (conj H4
           (unknown_attribute_is_unknown_task Demo.env _ Demo.analyzer _ _ [] H1 H2 H3 H4))))).
Defined.

(** C2, as the claim states it, fails. [setup_logging] is no task of the
    analyzer, yet the task [setup-logging] is not answered with an
    Unknown-task reply: the method is an attribute of the agent, so it is
    called, it configures logging (the trace shows its effects) and the
    reply is [None].  And the empty task, no registered task either, is
    answered with the missing-field reply. *)
Lemma unregistered_task_counterexample :
  ~ In (replace "setup-logging" "-" "_") Analyzer.tasks
  /\ Analyzer.handle_message Demo.analyzer {[ "task" := PStr "setup-logging" ]} []
     = (Ok PNone,
        [ Enter "GithubActionsErrorAnalyzerAgent.setup_logging" ∅;
          Ext "Path.parent.mkdir" [PStr "./logs/github-actions-analyzer.log"];
          Ext "dacp.setup_dacp_logging"
            [PDict [ ("level", PStr "INFO");
                     ("format_style", PStr "emoji");
                     ("include_timestamp", PBool true);
                     ("log_file", PStr "./logs/github-actions-analyzer.log") ]] ])
  /\ Ok PNone <> Ok (error_envelope "Unknown task: setup-logging")
  /\ ~ In (replace "" "-" "_") Analyzer.tasks
  /\ Analyzer.handle_message Demo.analyzer {[ "task" := PStr "" ]} []
     = (Ok (error_envelope "Missing required field: task"), [])
  /\ error_envelope "Missing required field: task" <> error_envelope "Unknown task: ".
Proof.
  repeat split; try (vm_compute; reflexivity); try discriminate;
    vm_compute; intuition discriminate.
Qed.

Lemma handler_exception_witness :
  In Remediator.handle_message (handlers Demo.garbled)
  /\ propose_remediation_message !! "task" = Some (PStr "propose-remediation")
  /\ "propose-remediation" <> ""
  /\ getattr (Remediator.agent Demo.garbled "remediator" 2)
       (replace "propose-remediation" "-" "_")
     = Some (Remediator.propose_remediation_method Demo.garbled)
  /\ fst (call (Remediator.propose_remediation_method Demo.garbled)
            (delete "task" propose_remediation_message) [])
     = Raise (ValueError ("Failed to parse JSON response: "
                            ++ "Expecting value: line 1 column 1 (char 0)"))
  /\ fst (Remediator.handle_message (Remediator.agent Demo.garbled "remediator" 2)
            propose_remediation_message [])
     = Ok (PDict [("error",
                   PStr ("Error executing task propose-remediation: "
                           ++ "Failed to parse JSON response: "
                           ++ "Expecting value: line 1 column 1 (char 0)"))]).
Proof.
  assert (H1 : In Remediator.handle_message (handlers Demo.garbled))
    by (right; right; left; reflexivity).
  assert (H2 : propose_remediation_message !! "task" = Some (PStr "propose-remediation"))
    by reflexivity.
  assert (H3 : "propose-remediation" <> "") by discriminate.
  assert (H4 : getattr (Remediator.agent Demo.garbled "remediator" 2)
                 (replace "propose-remediation" "-" "_")
               = Some (Remediator.propose_remediation_method Demo.garbled))
    by reflexivity.
  pose (run := call (Remediator.propose_remediation_method Demo.garbled)
                 (delete "task" propose_remediation_message) []).
  pose (e := ValueError ("Failed to parse JSON response: "
                           ++ "Expecting value: line 1 column 1 (char 0)")).
  assert (H5 : run = (Raise e, snd run)) by (vm_compute; reflexivity).
  assert (H6 : isinstance_exn e "Exception" = true) by reflexivity.
  pose proof (proj1 (handler_exception_becomes_error_envelope Demo.garbled _ _ _ _ _ e []
                       (snd run) H1 H2 H3 H4 H5 H6)) as H.
  split; [exact H1|]. split; [exact H2|]. split; [exact H3|]. split; [exact H4|].
  split.
  - change (fst run = Raise e). now rewrite H5.
  - now rewrite H.
Defined.

(** C1, as the claim states it, fails for an exception outside
    [Exception]. When the call to the model is interrupted from the
    keyboard, the handler raises KeyboardInterrupt, which neither [except]
    clause of [handle_message] names: it leaves [handle_message]. *)
Lemma interrupted_handler_counterexample :
  getattr (Remediator.agent Demo.interrupted "remediator" 2)
    (replace "propose-remediation" "-" "_")
  = Some (Remediator.propose_remediation_method Demo.interrupted)
  /\ fst (call (Remediator.propose_remediation_method Demo.interrupted)
            (delete "task" propose_remediation_message) [])
     = Raise KeyboardInterrupt
  /\ isinstance_exn KeyboardInterrupt "Exception" = false
  /\ fst (Remediator.handle_message (Remediator.agent Demo.interrupted "remediator" 2)
            propose_remediation_message [])
     = Raise KeyboardInterrupt.
Proof.
  repeat split; vm_compute; reflexivity.
Qed.

Lemma invalid_parameters_witness :
  In Remediator.handle_message (handlers Demo.env)
  /\ overfull_message !! "task" = Some (PStr "propose-remediation")
  /\ "propose-remediation" <> ""
  /\ has_unexpected_key
       [ ("analysis_result", None); ("raw_logs", None); ("repository", None);
         ("branch", None); ("commit_sha", None) ]
       (delete "task" overfull_message)
  /\ Remediator.handle_message Demo.remediator overfull_message []
     = (Ok (error_envelope
              ("Invalid parameters for task propose-remediation: "
                 ++ "GithubActionsErrorRemediatorAgent.propose_remediation()"
                 ++ " got an unexpected keyword argument 'dry_run'")), []).
Proof.
  assert (H1 : In Remediator.handle_message (handlers Demo.env))
    by (right; right; left; reflexivity).
  assert (H2 : overfull_message !! "task" = Some (PStr "propose-remediation"))
    by reflexivity.
  assert (H3 : "propose-remediation" <> "") by discriminate.
  assert (H4 : getattr Demo.remediator (replace "propose-remediation" "-" "_")
               = Some (Remediator.propose_remediation_method Demo.env))
    by reflexivity.
  assert (H5 : has_unexpected_key
                 [ ("analysis_result", None); ("raw_logs", None); ("repository", None);
                   ("branch", None); ("commit_sha", None) ]
                 (delete "task" overfull_message)).
  { exists "dry_run". split; [exists (PBool true); reflexivity|].
    simpl. intuition discriminate. }
  destruct (invalid_parameters_are_rejected Demo.env _ Demo.remediator _ _ _ _ _ []
              H1 H2 H3 H4 (or_introl H5)) as [why [Hwhy Hrun]].
  split; [exact H1|]. split; [exact H2|]. split; [exact H3|]. split; [exact H5|].
  rewrite Hrun. vm_compute in Hwhy. injection Hwhy as <-. reflexivity.
Defined.

Lemma hyphenated_task_witness :
  Remediator.handle_message Demo.remediator propose_remediation_message []
  = try_clauses
      (result <- (memory_summary <- get_memory_summary Demo.env ;;
                  Remediator.propose_remediation Demo.env
                    (PDict [("root_cause", PStr "OOM")]) (PStr "Killed")
                    (PStr "octo/app") (PStr "main")
                    (PStr "0123456789abcdef0123456789abcdef01234567") memory_summary) ;;
       Remediator.finish result)
      (except_clauses "propose-remediation")
      [ Enter "GithubActionsErrorRemediatorAgent.propose_remediation"
          (delete "task" propose_remediation_message) ].
Proof.
  refine (proj2 (proj1 (hyphenated_task_runs_underscored_method Demo.env)
              Remediator.handle_message Remediator.finish
              Demo.remediator propose_remediation_message
              "propose-remediation"
              "GithubActionsErrorRemediatorAgent.propose_remediation"
              [ ("analysis_result", None); ("raw_logs", None); ("repository", None);
                ("branch", None); ("commit_sha", None) ]
              (fun args =>
                 memory_summary <- get_memory_summary Demo.env ;;
                 Remediator.propose_remediation Demo.env
                   (arg args "analysis_result") (arg args "raw_logs")
                   (arg args "repository") (arg args "branch")
                   (arg args "commit_sha") memory_summary)
              (delete "task" propose_remediation_message) [] _ _ _ _ _)).
  - right; right; left; reflexivity.
  - reflexivity.
  - discriminate.
  - reflexivity.
  - vm_compute. reflexivity.
Defined.

End DispatchExamples.

(** ** The parse functions *)

Section Parse.

Import Template.

Variable E : Env.

Lemma parse_functions_template (cls : model_class) (parse : pyval -> M pyval) :
  In (cls, parse) (parse_functions E) ->
  exists defaults, parse = parse_output E cls defaults.
Proof.
  intros [[= <- <-]|[[= <- <-]|[[= <- <-]|[[= <- <-]|[[= <- <-]|[[= <- <-]|[]]]]]]];
    eexists; reflexivity.
Qed.



(** C9. Each parse function returns an instance of its output model as it
    is, and makes no call on the way: the trace is unchanged, so nothing
    was parsed, substituted or validated. *)
Theorem parse_is_identity_on_instances
    (cls : model_class) (parse : pyval -> M pyval) (r : pyval) (tr : trace) :
  In (cls, parse) (parse_functions E) ->
  isinstance r cls = true ->
  parse r tr = (Ok r, tr).
Proof.
  intros Hin Hr. apply parse_functions_template in Hin as [defaults ->].
  unfold parse_output. now rewrite Hr.
Qed.

End Parse.

Section ParseExamples.


(** The grammar on some texts. *)
Example strict_json_texts :
  Json.strict "{}" = true
  /\ Json.strict (" {" ++ Demo.quote ++ "fixes" ++ Demo.quote
                    ++ ": [1, -2.5e3, true, null, {}, []]} ") = true
  /\ Json.strict "-0.5E+2" = true
  /\ Json.strict "I am sorry, I cannot help with that" = false
  /\ Json.strict "[1,]" = false
  /\ Json.strict "01" = false
  /\ Json.strict "{} {}" = false
  /\ Json.strict "NaN" = false
  /\ Json.strict "Infinity" = false
  /\ Json.strict "-Infinity" = false.
Proof. repeat split; vm_compute; reflexivity. Qed.


Lemma parse_identity_witness :
  In (Propose_RemediationOutput, Remediator.parse_propose_remediation_output Demo.env)
    (parse_functions Demo.env)
  /\ isinstance a_remediation Propose_RemediationOutput = true
  /\ Remediator.parse_propose_remediation_output Demo.env a_remediation []
     = (Ok a_remediation, []).
Proof.
  assert (H1 : In (Propose_RemediationOutput,
                   Remediator.parse_propose_remediation_output Demo.env)
                 (parse_functions Demo.env)) by (do 5 right; left; reflexivity).
  assert (H2 : isinstance a_remediation Propose_RemediationOutput = true) by reflexivity.
  exact (conj H1 (conj H2
           (parse_is_identity_on_instances Demo.env _ _ _ [] H1 H2))).
Defined.

End ParseExamples.

(** ** What a successful dispatch returns *)

Section Success.

Import Template.

Variable E : Env.

(** The analyzer and the remediator return the record of a handler's
    result as a mapping. *)
Lemma success_is_mapping (h : object -> gmap string pyval -> M pyval)
    (self : object) (message : gmap string pyval) (t : string) (method : attr)
    (cls : string) (data : list (string * pyval)) (tr tr' : trace) :
  In h [Analyzer.handle_message; Remediator.handle_message] ->
  message !! "task" = Some (PStr t) ->
  t <> "" ->
  getattr self (replace t "-" "_") = Some method ->
  call method (delete "task" message) tr = (Ok (PModel cls data), tr') ->
  h self message tr = (Ok (PDict data), tr').
Proof.
  intros Hh Hm Ht Hattr Hcall.
  assert (h = dispatch Analyzer.finish) as ->
    by (destruct Hh as [<-|[<-|[]]]; reflexivity).
  rewrite (dispatch_str _ _ _ _ Hm Ht), Hattr.
  unfold try_clauses, bind. now rewrite Hcall.
Qed.

(** The collector returns it as the text [json.dumps] makes of it. *)
Lemma collector_success_is_text (self : object) (message : gmap string pyval)
    (t : string) (method : attr) (cls text : string) (data : list (string * pyval))
    (tr tr' : trace) :
  message !! "task" = Some (PStr t) ->
  t <> "" ->
  getattr self (replace t "-" "_") = Some method ->
  call method (delete "task" message) tr = (Ok (PModel cls data), tr') ->
  json_dumps E (PDict data) = Ok text ->
  Collector.handle_message E self message tr
  = (Ok (PStr text), (tr' ++ [Ext "json.dumps" [PDict data]])%list).
Proof.
  intros Hm Ht Hattr Hcall Hdumps. unfold Collector.handle_message.
  rewrite (dispatch_str _ _ _ _ Hm Ht), Hattr.
  unfold try_clauses, bind. rewrite Hcall.
  unfold Collector.finish, bind, ext, ret. simpl. now rewrite Hdumps.
Qed.

End Success.

(** C7, where the code departs from it. The collector's [handle_message]
    answers a successful [extract-build-info] with a string, the JSON text
    of the record, and not with the record as a mapping; the string is not
    a dict, so the test for an ['error'] key does not apply to it as it
    does to the replies of the other two agents. *)
Theorem collector_returns_text_not_mapping :
  fst (Collector.handle_message Demo.env Demo.collector extract_build_info_message [])
  = Ok (PStr (Demo.dumps_text (PDict Collector.extract_build_info_defaults)))
  /\ is_dict (PStr (Demo.dumps_text (PDict Collector.extract_build_info_defaults))) = false
  /\ is_str (PStr (Demo.dumps_text (PDict Collector.extract_build_info_defaults))) = true.
Proof.
  split; [vm_compute; reflexivity|]. split; reflexivity.
Qed.

(** ** The reconciliation engine *)

Section Items.

Context {A : Type}.

Lemma assoc_in_nodup (k : string) (v : A) (items : list (string * A)) :
  NoDup (List.map fst items) -> In (k, v) items -> assoc k items = Some v.
Proof.
  induction items as [|[k' v'] rest IH]; simpl; [tauto|].
  intros Hnd [[= -> ->]|Hin].
  - now rewrite String.eqb_refl.
  - apply NoDup_cons in Hnd as [Hnotin Hrest].
    destruct (String.eqb_spec k k') as [->|_]; [|auto].
    exfalso. apply Hnotin, list_elem_of_In, in_map_iff. now exists (k', v).
Qed.

End Items.

Section Engine.

Import Reconciliation.





(** Induction on schemas, with the hypothesis for every child and for the
    element. *)
Lemma SchemaNode_nested_ind (P : SchemaNode -> Prop) :
  (forall k r d cs el al,
      Forall (fun c => P (snd c)) cs ->
      (forall e, el = Some e -> P e) ->
      P (Node k r d cs el al)) ->
  forall n, P n.
Proof.
  intros step. fix IH 1. intros [k r d cs el al]. apply step.
  - induction cs as [|[name c] rest IHcs]; constructor; [apply IH|exact IHcs].
  - destruct el as [e0|]; intros e [= <-]. apply IH.
Qed.

(** *** The walk of an object *)

Section Walk.

Variable policy : ElementPolicy.
Variable path : list string.
Variable fields : list (string * pyval).

Lemma walk_cons (name : string) (c : SchemaNode) (rest : list (string * SchemaNode)) :
  walk (conform policy) path fields ((name, c) :: rest)
  = match settled policy path fields name c with
    | Failure e => inl e
    | Success x =>
        match walk (conform policy) path fields rest with
        | inl e => inl e
        | inr xs => inr ((name, x) :: xs)
        end
    end.
Proof. reflexivity. Qed.

(** A walk that succeeds has settled every child, in order. *)
Lemma walk_success (cs : list (string * SchemaNode)) (xs : list (string * pyval)) :
  walk (conform policy) path fields cs = inr xs ->
  Forall2 (fun c x => fst c = fst x /\ settled policy path fields (fst c) (snd c) = Success (snd x)) cs xs.
Proof.
  revert xs. induction cs as [|[name c] rest IH]; intros xs.
  - intros [= <-]. constructor.
  - rewrite walk_cons. destruct (settled policy path fields name c) as [x|e] eqn:Hx; [|discriminate].
    destruct (walk (conform policy) path fields rest) as [e|xs'] eqn:Hrest; [discriminate|].
    intros [= <-]. constructor; [now split|now apply IH].
Qed.


End Walk.

Lemma conform_object (policy : ElementPolicy) (path : list string) (r : bool)
    (d : option pyval)
    (cs : list (string * SchemaNode)) (el : option SchemaNode) (al : list string)
    (fields : list (string * pyval)) :
  conform policy path (Node KObject r d cs el al) (PDict fields)
  = match walk (conform policy) path fields cs with
    | inl e => Fatal e
    | inr xs => Accepted (PDict xs)
    end.
Proof. reflexivity. Qed.

(** An object node never treats an object as absent. *)
Lemma conform_object_present (policy : ElementPolicy) (path : list string)
    (n : SchemaNode) (fields : list (string * pyval)) :
  kind n = KObject -> conform policy path n (PDict fields) <> Absent.
Proof.
  destruct n as [k r d cs el al]. intros Hk. simpl in Hk. subst k.
  rewrite conform_object. now destruct (walk (conform policy) path fields cs).
Qed.

(** *** Omitting a required field *)

Section Omit.

Variable policy : ElementPolicy.
Variable path : list string.



End Omit.

(** An array node under [Abort], on an array. *)
Lemma conform_array_abort (path : list string) (r : bool) (d : option pyval)
    (cs : list (string * SchemaNode)) (e : SchemaNode) (al : list string)
    (items : list pyval) :
  conform Abort path (Node KArray r d cs (Some e) al) (PList items)
  = match gather (List.map
                    (fun item => settle (path ++ ["[]"])%list e
                                   (Some (conform Abort (path ++ ["[]"])%list e item)))
                    items) with
    | inl err => Fatal err
    | inr xs => Accepted (PList xs)
    end.
Proof. reflexivity. Qed.





(** *** Reconciling a record again *)

Lemma conform_none (policy : ElementPolicy) (path : list string) (n : SchemaNode) :
  conform policy path n PNone = Absent.
Proof. destruct n as [[] r d cs el al]; reflexivity. Qed.

Lemma well_formed_node (policy : ElementPolicy) (k : Kind) (r : bool) (d : option pyval)
    (cs : list (string * SchemaNode)) (el : option SchemaNode) (al : list string) :
  well_formed policy (Node k r d cs el al) ->
  (forall dv, d = Some dv ->
     forall path, conform policy path (Node k r d cs el al) dv = Accepted dv)
  /\ NoDup (List.map fst cs)
  /\ Forall (fun c => well_formed policy (snd c)) cs
  /\ (forall e, el = Some e -> well_formed policy e).
Proof.
  intros (Hd & Hnd & Hcs & Hel). repeat split.
  - intros dv ->. exact Hd.
  - exact Hnd.
  - clear -Hcs. induction cs as [|[name c] rest IH]; constructor.
    + apply Hcs.
    + apply IH, Hcs.
  - intros e ->. exact Hel.
Qed.

Lemma well_formed_default (policy : ElementPolicy) (n : SchemaNode) (dv : pyval)
    (path : list string) :
  well_formed policy n -> default n = Some dv -> conform policy path n dv = Accepted dv.
Proof.
  destruct n as [k r d cs el al]. intros Hwf Hd. simpl in Hd.
  now apply (well_formed_node _ _ _ _ _ _ _ Hwf).
Qed.

(** What a node that keeps accepted values settles is fixed by it. *)
Lemma settle_fixed (policy : ElementPolicy) (c : SchemaNode) (path : list string)
    (seen : option pyval) (x : pyval) :
  (forall p v r, conform policy p c v = Accepted r -> forall p', conform policy p' c r = Accepted r) ->
  well_formed policy c ->
  settle path c (option_map (conform policy path c) seen) = Success x ->
  fixed_by policy c x.
Proof.
  intros Hkeep Hwf Hx q.
  assert (Hfall : fallback path c = Success x ->
                  settle q c (Some (conform policy q c x)) = Success x).
  { unfold fallback. destruct (default c) as [dv|] eqn:Hd.
    - intros [= <-]. now rewrite (well_formed_default policy c dv q Hwf Hd).
    - destruct (required c) eqn:Hreq; [discriminate|]. intros [= <-].
      rewrite conform_none. simpl. unfold fallback. now rewrite Hd, Hreq. }
  destruct seen as [v|]; simpl in Hx; [|auto].
  destruct (conform policy path c v) as [r| |e] eqn:Hv; simpl in Hx; [|auto|discriminate].
  injection Hx as <-. now rewrite (Hkeep _ _ _ Hv q).
Qed.

(** A walk over the record of a walk gives the record again. *)
Lemma walk_replay (policy : ElementPolicy) (path : list string)
    (full : list (string * pyval))
    (cs : list (string * SchemaNode)) (xs : list (string * pyval)) :
  Forall2 (fun c x => fst c = fst x /\ fixed_by policy (snd c) (snd x)
                      /\ assoc (fst c) full = Some (snd x)) cs xs ->
  walk (conform policy) path full cs = inr xs.
Proof.
  induction 1 as [|[name c] [name' x] cs xs (Hname & Hfix & Hfull) _ IH];
    [reflexivity|].
  simpl in Hname, Hfix, Hfull. subst name'.
  rewrite walk_cons. unfold settled. rewrite Hfull. cbn [option_map].
  now rewrite (Hfix (path ++ [name])%list), IH.
Qed.

Lemma walk_fixed (policy : ElementPolicy) (path : list string)
    (fields : list (string * pyval))
    (cs : list (string * SchemaNode)) (xs : list (string * pyval)) :
  Forall (fun c => forall p v r, conform policy p (snd c) v = Accepted r ->
                     forall p', conform policy p' (snd c) r = Accepted r) cs ->
  Forall (fun c => well_formed policy (snd c)) cs ->
  NoDup (List.map fst cs) ->
  walk (conform policy) path fields cs = inr xs ->
  forall path', walk (conform policy) path' xs cs = inr xs.
Proof.
  intros Hkeep Hwf Hnd Hwalk path'. apply walk_success in Hwalk.
  apply walk_replay.
  assert (Hnames : List.map fst xs = List.map fst cs).
  { clear -Hwalk. induction Hwalk as [|c x cs xs [Hname _] _ IH]; simpl; congruence. }
  rewrite <- Hnames in Hnd. clear Hnames.
  assert (Hsub : forall x, In x xs -> In x xs) by auto.
  revert Hsub Hnd. generalize xs at 2 3 4 as full.
  induction Hwalk as [|[name c] [name' x] cs xs [Hname Hx] _ IH];
    intros full Hsub Hnd; constructor.
  - simpl in *. subst name'. repeat split.
    + apply Forall_inv in Hkeep, Hwf. simpl in Hkeep, Hwf.
      exact (settle_fixed policy c _ _ x Hkeep Hwf Hx).
    + apply assoc_in_nodup; auto.
  - apply Forall_inv_tail in Hkeep, Hwf. apply IH; auto.
    intros y Hy. apply Hsub. now right.
Qed.

Lemma flat_map_fixed {A : Type} (f : A -> list A) (l : list A) :
  (forall x, In x l -> f x = [x]) -> flat_map f l = l.
Proof.
  induction l as [|x l IH]; intros H; simpl; [reflexivity|].
  rewrite (H x) by now left. simpl. f_equal. apply IH. intros y Hy. apply H. now right.
Qed.

Lemma find_ci_fixed (s a : string) (allowed : list string) :
  List.find (ci_eqb s) allowed = Some a -> List.find (ci_eqb a) allowed = Some a.
Proof.
  intros Hfind. pose proof (find_some _ _ Hfind) as [_ Heq].
  unfold ci_eqb in Heq. apply String.eqb_eq in Heq.
  unfold ci_eqb in *. now rewrite <- Heq.
Qed.

(** Under [Abort], the elements that an array has settled settle again,
    each as it is, when the element node fixes what it settles. *)
Lemma gather_fixed (g g' : pyval -> Result) (items xs : list pyval) :
  (forall item x, g item = Success x -> g' x = Success x) ->
  gather (List.map g items) = inr xs ->
  gather (List.map g' xs) = inr xs.
Proof.
  intros Hfix. revert xs. induction items as [|item items IH]; intros xs.
  - intros [= <-]. reflexivity.
  - simpl. destruct (g item) as [x|] eqn:Hx; [|discriminate].
    destruct (gather (List.map g items)) as [|ys] eqn:Hrest; [discriminate|].
    intros [= <-]. simpl. now rewrite (Hfix item x Hx), (IH ys eq_refl).
Qed.

(** A well-formed node accepts, unchanged, what it has accepted. *)
Lemma conform_fixed (policy : ElementPolicy) (n : SchemaNode) :
  well_formed policy n ->
  forall p v r, conform policy p n v = Accepted r -> forall p', conform policy p' n r = Accepted r.
Proof.
  induction n as [k req d cs el al IHcs IHel] using SchemaNode_nested_ind.
  intros Hwf p v r Hacc p'.
  apply well_formed_node in Hwf as (_ & Hnd & Hwfcs & Hwfel).
  destruct k.
  - (* string *)
    destruct v; simpl in Hacc; try discriminate. now injection Hacc as <-.
  - (* integer *)
    destruct v as [| |z| |s| | |]; simpl in Hacc; try discriminate.
    + now injection Hacc as <-.
    + destruct (parse_int s); [|discriminate]. now injection Hacc as <-.
  - (* boolean *)
    destruct v as [|b| | |s| | |]; simpl in Hacc; try discriminate.
    + now injection Hacc as <-.
    + destruct (parse_bool s); [|discriminate]. now injection Hacc as <-.
  - (* object *)
    destruct v as [| | | | | |fields|]; try discriminate.
    rewrite conform_object in Hacc.
    destruct (walk (conform policy) p fields cs) as [e|xs] eqn:Hwalk; [discriminate|].
    injection Hacc as <-. rewrite conform_object.
    rewrite (walk_fixed policy p fields cs xs); auto.
    clear -IHcs Hwfcs. induction cs as [|c cs IH]; constructor.
    + apply Forall_inv in IHcs, Hwfcs. exact (IHcs Hwfcs).
    + apply Forall_inv_tail in IHcs, Hwfcs. exact (IH IHcs Hwfcs).
  - (* array *)
    destruct v as [| | | | |items| |]; try discriminate.
    destruct el as [e|]; [|discriminate].
    destruct policy.
    + simpl in Hacc. injection Hacc as <-.
      simpl. f_equal. f_equal. apply flat_map_fixed.
      intros x Hx. apply in_flat_map in Hx as [item [_ Hx]].
      assert (Hkeep : conform Degrade (p' ++ ["[]"])%list e x = Accepted x).
      { unfold element_values in Hx.
        destruct (conform Degrade (p ++ ["[]"])%list e item) as [x'| |err] eqn:Hitem.
        - destruct Hx as [<-|[]]. exact (IHel e eq_refl (Hwfel e eq_refl) _ _ _ Hitem _).
        - destruct (default e) as [dv|] eqn:Hd; [|contradiction].
          destruct Hx as [<-|[]]. now apply well_formed_default; auto.
        - destruct (default e) as [dv|] eqn:Hd; [|contradiction].
          destruct Hx as [<-|[]]. now apply well_formed_default; auto. }
      now rewrite Hkeep.
    + rewrite conform_array_abort in Hacc.
      destruct (gather _) as [|xs] eqn:Hgather in Hacc; [discriminate|].
      injection Hacc as <-. rewrite conform_array_abort.
      rewrite (gather_fixed
                 (fun item => settle (p ++ ["[]"])%list e
                                (Some (conform Abort (p ++ ["[]"])%list e item)))
                 (fun item => settle (p' ++ ["[]"])%list e
                                (Some (conform Abort (p' ++ ["[]"])%list e item)))
                 items xs); [reflexivity| |exact Hgather].
      intros item x Hx.
      exact (settle_fixed Abort e (p ++ ["[]"])%list (Some item) x
               (IHel e eq_refl (Hwfel e eq_refl)) (Hwfel e eq_refl) Hx
               (p' ++ ["[]"])%list).
  - (* enum *)
    destruct v as [| | | |s| | |]; simpl in Hacc; try discriminate.
    destruct (List.find (ci_eqb s) al) as [a|] eqn:Hfind; [|discriminate].
    injection Hacc as <-. simpl. now rewrite (find_ci_fixed s a al Hfind).
Qed.

(** Reconciling the record of a reconciliation gives the record again. *)
Lemma reconcile_value_fixed (policy : ElementPolicy) (schema : SchemaNode) (v r : pyval) :
  well_formed policy schema ->
  reconcile_value policy schema v = Success r ->
  reconcile_value policy schema r = Success r.
Proof.
  intros Hwf Hr. unfold reconcile_value in *.
  exact (settle_fixed policy schema [] (Some v) r (conform_fixed policy schema Hwf)
           Hwf Hr []).
Qed.

(** *** The engine under the parse functions *)

Lemma analyze_error_schema_well_formed (policy : ElementPolicy) :
  well_formed policy analyze_error_schema.
Proof.
  unfold analyze_error_schema.
  destruct policy; cbn -[conform];
    repeat split; try (intros; reflexivity);
    apply (bool_decide_unpack _); vm_compute; exact I.
Qed.

Section EngineParse.

Import Template.

Variable policy : ElementPolicy.
Variable E : Env.
Variable cls : model_class.
Variable defaults : list (string * pyval).

Let schema : SchemaNode := schema_of_class cls false (Some (PDict defaults)).

Lemma reconcile_success (raw r : pyval) :
  reconcile policy E raw schema = Success r ->
  exists v, reconcile_value policy schema v = Success r.
Proof.
  unfold reconcile. destruct raw; eauto.
  destruct (json_loads E s); [eauto|discriminate].
Qed.

Lemma engine_parse_ok (response r : pyval) :
  engine_parse_with_fallback policy E response cls defaults = Ok r ->
  exists v data,
    reconcile_value policy schema v = Success (PDict data) /\ r = PModel (cls_name cls) data.
Proof.
  unfold engine_parse_with_fallback. fold schema.
  destruct (reconcile policy E response schema) as [record|e] eqn:Hrec; [|discriminate].
  apply reconcile_success in Hrec as [v Hv].
  destruct record; try discriminate. intros [= <-]. eauto.
Qed.

(** A parse function over the engine returns, for a raw response, an
    instance that holds a record of the engine. *)
Lemma parse_output_engine_ok (response r : pyval) (tr tr' : trace) :
  isinstance response cls = false ->
  parse_output (with_engine policy E) cls defaults response tr = (Ok r, tr') ->
  exists v data,
    reconcile_value policy schema v = Success (PDict data) /\ r = PModel (cls_name cls) data.
Proof.
  intros Hraw. unfold parse_output. rewrite Hraw. intros Hrun.
  apply bind_ok in Hrun as (v & tr1 & _ & Hrun).
  apply try_except_ok in Hrun as [Hrun|(e & tr2 & _ & Hrun)].
  - apply ext_ok in Hrun. exact (engine_parse_ok v r Hrun).
  - now apply raise_not_ok in Hrun.
Qed.

(** The record of an instance, as a mapping or as a text that [json.loads]
    reads as that mapping, is parsed into the instance again. *)
Lemma parse_output_engine_again (data : list (string * pyval)) (tr : trace) :
  reconcile_value policy schema (PDict data) = Success (PDict data) ->
  fst (parse_output (with_engine policy E) cls defaults (PDict data) tr)
  = Ok (PModel (cls_name cls) data)
  /\ forall text,
       json_loads E text = Ok (PDict data) ->
       fst (parse_output (with_engine policy E) cls defaults (PStr text) tr)
       = Ok (PModel (cls_name cls) data).
Proof.
  intros Hfixed.
  assert (Hp : engine_parse_with_fallback policy E (PDict data) cls defaults
               = Ok (PModel (cls_name cls) data)).
  { unfold engine_parse_with_fallback, reconcile. fold schema. now rewrite Hfixed. }
  split.
  - unfold parse_output, bind, try_except, ext, ret. simpl. now rewrite Hp.
  - intros text Htext.
    unfold parse_output, bind, try_except, ext, ret. simpl. rewrite Htext.
    now rewrite Hp.
Qed.

End EngineParse.



(** Why the general statement asks, through arrays, that a failing element
    fail the array: under [Degrade] the fix without its title is skipped
    and the analysis reconciles, with no fix. *)
Lemma degraded_element_is_skipped :
  exists record,
    reconcile Degrade Demo.env untitled_fix analyze_error_schema = Success (PDict record)
    /\ assoc "recommended_fixes" record = Some (PList []).
Proof. eexists. split; [vm_compute; reflexivity|]. reflexivity. Qed.

(** C8. Whatever the engine does with a failing array element: when
    [parse_analyze_error_output], over the engine, returns an instance for
    a raw response (a text or a mapping), parsing the record of that
    instance, handed over as the mapping [model_dump] gives or as any text
    that [json.loads] reads as that mapping, returns the same instance. *)
Theorem reconciliation_is_idempotent
    (policy : ElementPolicy) (E : Env) (raw r : pyval) (tr tr' : trace) :
  isinstance raw Analyze_ErrorOutput = false ->
  Analyzer.parse_analyze_error_output (with_engine policy E) raw tr = (Ok r, tr') ->
  (forall tr2,
      fst (Analyzer.parse_analyze_error_output (with_engine policy E) (model_dump r) tr2)
      = Ok r)
  /\ (forall text tr2,
        json_loads E text = Ok (model_dump r) ->
        fst (Analyzer.parse_analyze_error_output (with_engine policy E) (PStr text) tr2)
        = Ok r).
Proof.
  intros Hraw Hparse. unfold Analyzer.parse_analyze_error_output in *.
  apply parse_output_engine_ok in Hparse as (v & data & Hv & ->); [|assumption].
  apply reconcile_value_fixed in Hv; [|exact (analyze_error_schema_well_formed policy)].
  simpl model_dump. split.
  - intros tr2.
    apply (parse_output_engine_again policy E Analyze_ErrorOutput _ data tr2 Hv).
  - intros text tr2.
    apply (parse_output_engine_again policy E Analyze_ErrorOutput _ data tr2 Hv).
Qed.

Lemma reconciliation_idempotent_witness :
  isinstance titled_fix Analyze_ErrorOutput = false
  /\ (exists r,
        fst (Analyzer.parse_analyze_error_output (with_engine Degrade Demo.env)
               titled_fix [])
        = Ok r
        /\ fst (Analyzer.parse_analyze_error_output (with_engine Degrade Demo.env)
                 (model_dump r) [])
           = Ok r).
Proof.
  assert (H1 : isinstance titled_fix Analyze_ErrorOutput = false) by reflexivity.
  pose (run := Analyzer.parse_analyze_error_output (with_engine Degrade Demo.env)
                 titled_fix []).
  assert (H2 : exists r, run = (Ok r, snd run)) by (eexists; vm_compute; reflexivity).
  destruct H2 as [r H2].
  split; [exact H1|]. exists r. split.
  - change (fst run = Ok r). now rewrite H2.
  - exact (proj1 (reconciliation_is_idempotent Degrade Demo.env titled_fix r [] (snd run)
                    H1 H2) []).
Defined.

End Engine.

(** * Further properties of the code *)

(** ** Dispatch: the paths around the handler *)

Section DispatchCoverage.

Import Template.

Variable E : Env.

(** X1. A task that is truthy and not a string (a number, a list, a
    mapping) makes [handle_message] raise AttributeError: [task.replace]
    stands before the [try], so no error reply is made; nothing was looked
    up or invoked. *)
Theorem non_string_task_raises
    (h : object -> gmap string pyval -> M pyval) (self : object)
    (message : gmap string pyval) (v : pyval) (tr : trace) :
  In h (handlers E) ->
  message !! "task" = Some v ->
  truthy v = true ->
  is_str v = false ->
  h self message tr
  = (Raise (AttributeError ("'" ++ type_name v ++ "' object has no attribute 'replace'")),
     tr).
Proof.
  intros Hh Hm Hv Hs. apply handlers_dispatch in Hh as [finish ->].
  now apply dispatch_non_string.
Qed.

(** X2. When the task of a message is absent, falsy or a string,
    [handle_message] lets no instance of [Exception] out, wherever under
    the [try] it was raised: in the binding, in the handler or in the
    serialisation of the result. *)
Theorem no_exception_leaves_handle_message
    (h : object -> gmap string pyval -> M pyval) (self : object)
    (message : gmap string pyval) (e : exn) (tr tr' : trace) :
  In h (handlers E) ->
  truthy (default PNone (message !! "task")) = false
  \/ is_str (default PNone (message !! "task")) = true ->
  h self message tr = (Raise e, tr') ->
  isinstance_exn e "Exception" = false.
Proof.
  intros Hh Htask. apply handlers_dispatch in Hh as [finish ->].
  destruct Htask as [Hfalsy|Hstr].
  - now rewrite dispatch_falsy.
  - destruct (message !! "task") as [[| | | |t| | |]|] eqn:Hm; try discriminate.
    intros Hrun.
    exact (dispatch_raises_no_exception finish self message t e tr tr' Hm Hrun).
Qed.

(** X3. A message without a ['task'] key gets the missing-field reply, and
    nothing is looked up or invoked. *)
Theorem missing_task_key_is_missing_field
    (h : object -> gmap string pyval -> M pyval) (self : object)
    (message : gmap string pyval) (tr : trace) :
  In h (handlers E) ->
  message !! "task" = None ->
  h self message tr = (Ok (error_envelope "Missing required field: task"), tr).
Proof.
  intros Hh Hm. apply handlers_dispatch in Hh as [finish ->].
  apply dispatch_falsy. now rewrite Hm.
Qed.

(** X4. A TypeError raised by the body of the handler, after its
    parameters were bound, is answered like a binding failure, with
    "Invalid parameters for task": that reply does not tell that the
    handler has not run. *)
Theorem type_error_in_handler_is_invalid_parameters
    (h : object -> gmap string pyval -> M pyval) (self : object)
    (message : gmap string pyval) (t qualname : string)
    (params : list (string * option pyval)) (body : gmap string pyval -> M pyval)
    (args : gmap string pyval) (e : exn) (tr tr' : trace) :
  In h (handlers E) ->
  message !! "task" = Some (PStr t) ->
  t <> "" ->
  getattr self (replace t "-" "_") = Some (AMethod qualname params body) ->
  bind_arguments qualname params (delete "task" message) = inr args ->
  body args (tr ++ [Enter qualname args])%list = (Raise e, tr') ->
  isinstance_exn e "TypeError" = true ->
  h self message tr
  = (Ok (error_envelope ("Invalid parameters for task " ++ t ++ ": " ++ exn_msg e)), tr').
Proof.
  intros Hh Hm Ht Hattr Hbind Hbody Hte.
  apply handlers_dispatch in Hh as [finish ->].
  rewrite (dispatch_str _ _ _ _ Hm Ht), Hattr.
  unfold try_clauses, bind. rewrite (call_bound _ _ _ _ _ _ Hbind), Hbody.
  simpl. now rewrite Hte.
Qed.

(** X5. A task that names an attribute of the agent that is not callable
    ([config], [model], [agent_id]) is answered with "Invalid parameters
    for task", the reason being that the object is not callable; nothing
    is invoked. *)
Theorem data_attribute_is_not_callable
    (h : object -> gmap string pyval -> M pyval) (self : object)
    (message : gmap string pyval) (t : string) (v : pyval) (tr : trace) :
  In h (handlers E) ->
  message !! "task" = Some (PStr t) ->
  t <> "" ->
  getattr self (replace t "-" "_") = Some (AData v) ->
  h self message tr
  = (Ok (error_envelope ("Invalid parameters for task " ++ t ++ ": '"
                           ++ type_name v ++ "' object is not callable")), tr).
Proof.
  intros Hh Hm Ht Hattr. apply handlers_dispatch in Hh as [finish ->].
  now rewrite (dispatch_str _ _ _ _ Hm Ht), Hattr.
Qed.

Lemma no_members_nil {A : Type} (l : list A) : (forall x, ~ In x l) -> l = [].
Proof. destruct l as [|x l]; [reflexivity|]. intros H. destruct (H x). now left. Qed.

Lemma defaulted_without_defaults (params : list (string * option pyval))
    (kwargs : gmap string pyval) :
  Forall (fun p => snd p = None) params -> defaulted params kwargs = ∅.
Proof.
  unfold defaulted. induction 1 as [|[name d] params Hd _ IH]; [reflexivity|].
  simpl in Hd. subst d. simpl. exact IH.
Qed.

(** Keyword arguments that are exactly the declared parameters, none of
    which has a default, are bound as they are. *)
Lemma bind_arguments_exact (qualname : string) (params : list (string * option pyval))
    (kwargs : gmap string pyval) :
  Forall (fun p => snd p = None) params ->
  (forall k, is_Some (kwargs !! k) <-> In k (List.map fst params)) ->
  bind_arguments qualname params kwargs = inr kwargs.
Proof.
  intros Hnone Hkeys. unfold bind_arguments.
  rewrite (no_members_nil (unexpected params kwargs)).
  - rewrite (no_members_nil (missing params kwargs)).
    + rewrite (defaulted_without_defaults _ _ Hnone). f_equal. apply (right_id ∅ (∪)).
    + intros p Hp. apply missing_spec in Hp as [Hin Hk].
      assert (Hsome : is_Some (kwargs !! p)).
      { apply Hkeys, in_map_iff. now exists (p, None). }
      rewrite Hk in Hsome. now destruct Hsome.
  - intros k Hk. apply unexpected_spec in Hk as [Hsome Hnot]. now apply Hnot, Hkeys.
Qed.

(** X6. A message whose keys besides ['task'] are exactly the parameters
    that the resolved method declares (none of them with a default, as for
    every method of the agents) reaches the body of the method with those
    keys and their values as sent, and without ['task']. *)
Theorem exact_parameters_reach_handler
    (h : object -> gmap string pyval -> M pyval) (finish : pyval -> M pyval)
    (self : object) (message : gmap string pyval) (t qualname : string)
    (params : list (string * option pyval)) (body : gmap string pyval -> M pyval)
    (tr : trace) :
  In (h, finish) (agents E) ->
  message !! "task" = Some (PStr t) ->
  t <> "" ->
  getattr self (replace t "-" "_") = Some (AMethod qualname params body) ->
  Forall (fun p => snd p = None) params ->
  (forall k, is_Some (delete "task" message !! k) <-> In k (List.map fst params)) ->
  delete "task" message !! "task" = None
  /\ h self message tr
     = try_clauses (result <- body (delete "task" message) ;; finish result)
         (except_clauses t) (tr ++ [Enter qualname (delete "task" message)])%list.
Proof.
  intros Hh Hm Ht Hattr Hnone Hkeys. split; [apply lookup_delete_eq|].
  apply agents_dispatch in Hh as ->.
  rewrite (dispatch_str _ _ _ _ Hm Ht), Hattr. unfold try_clauses, bind.
  now rewrite (call_bound _ _ _ _ _ _ (bind_arguments_exact qualname params _ Hnone Hkeys)).
Qed.

Lemma map_chars_idempotent (f : ascii -> ascii) (s : string) :
  (forall c, f (f c) = f c) -> map_chars f (map_chars f s) = map_chars f s.
Proof. intros Hf. induction s as [|c s IH]; simpl; [reflexivity|]. now rewrite Hf, IH. Qed.

Lemma method_name_idempotent (t : string) :
  replace (replace t "-" "_") "-" "_" = replace t "-" "_".
Proof.
  rewrite !replace_one_char. apply map_chars_idempotent. intros c.
  destruct (Ascii.eqb "-" c) eqn:Hc; [reflexivity|]. now rewrite Hc.
Qed.

(** X7. Normalising a task twice is normalising it once, and two tasks
    with the same normalisation ([propose-remediation] and
    [propose_remediation]) are served alike: with the same parameters, a
    reply to the one that is no error reply is the reply to the other. *)
Theorem task_spelling_does_not_matter :
  (forall t, replace (replace t "-" "_") "-" "_" = replace t "-" "_")
  /\ forall (h : object -> gmap string pyval -> M pyval) (self : object)
            (parameters : gmap string pyval) (t1 t2 : string) (v : pyval)
            (tr tr' : trace),
      In h (handlers E) ->
      t1 <> "" ->
      t2 <> "" ->
      replace t1 "-" "_" = replace t2 "-" "_" ->
      h self (<["task" := PStr t1]> parameters) tr = (Ok v, tr') ->
      has_key "error" v = false ->
      h self (<["task" := PStr t2]> parameters) tr = (Ok v, tr').
Proof.
  split; [exact method_name_idempotent|].
  intros h self parameters t1 t2 v tr tr' Hh Ht1 Ht2 Heq.
  apply handlers_dispatch in Hh as [finish ->].
  rewrite (dispatch_str finish self _ t1 (lookup_insert_eq _ _ _) Ht1).
  rewrite (dispatch_str finish self _ t2 (lookup_insert_eq _ _ _) Ht2).
  rewrite !delete_insert_eq, Heq.
  destruct (getattr self (replace t2 "-" "_")) as [method|].
  - unfold try_clauses.
    destruct ((result <- call method (delete "task" parameters) ;; finish result) tr)
      as [[a|e] tr1]; [trivial|].
    simpl. destruct (isinstance_exn e "TypeError").
    + intros [= <- _]. discriminate.
    + destruct (isinstance_exn e "Exception"); [|discriminate].
      intros [= <- _]. discriminate.
  - intros [= <- _]. discriminate.
Qed.

(** X8. Whatever the message, a reply of the collector's [handle_message]
    is a string or an error reply: the collector never returns a record as
    a mapping. *)
Theorem collector_reply_is_text_or_error
    (self : object) (message : gmap string pyval) (v : pyval) (tr tr' : trace) :
  Collector.handle_message E self message tr = (Ok v, tr') ->
  is_str v = true \/ exists text, v = error_envelope text.
Proof.
  unfold Collector.handle_message, dispatch, ret, raise.
  destruct (truthy (default PNone (message !! "task"))); cbn [negb];
    [|intros [= <- _]; eauto].
  destruct (default PNone (message !! "task")); try discriminate.
  destruct (getattr self (replace s "-" "_")) as [method|];
    [|intros [= <- _]; eauto].
  unfold try_clauses, bind.
  destruct (call method (delete "task" message) tr) as [[r|e] tr1].
  - unfold Collector.finish, bind, ext, ret.
    destruct (json_dumps E (if has_model_dump r then model_dump r else r)) as [text|e].
    + intros [= <- _]. now left.
    + simpl. destruct (isinstance_exn e "TypeError"); [intros [= <- _]; eauto|].
      destruct (isinstance_exn e "Exception"); [intros [= <- _]; eauto|discriminate].
  - simpl. destruct (isinstance_exn e "TypeError"); [intros [= <- _]; eauto|].
    destruct (isinstance_exn e "Exception"); [intros [= <- _]; eauto|discriminate].
Qed.

(** X9. The analyzer and the remediator answer with the result of the
    handler: an instance of an output model as the mapping [model_dump]
    gives, any other value ([None] from [setup_logging], a mapping) as it
    is; the reply adds nothing to the trace of the handler. *)
Theorem handler_result_is_the_reply
    (h : object -> gmap string pyval -> M pyval) (self : object)
    (message : gmap string pyval) (t : string) (method : attr) (r : pyval)
    (tr tr' : trace) :
  In h [Analyzer.handle_message; Remediator.handle_message] ->
  message !! "task" = Some (PStr t) ->
  t <> "" ->
  getattr self (replace t "-" "_") = Some method ->
  call method (delete "task" message) tr = (Ok r, tr') ->
  h self message tr = (Ok (if has_model_dump r then model_dump r else r), tr').
Proof.
  intros Hh Hm Ht Hattr Hcall.
  assert (h = dispatch Analyzer.finish) as ->
    by (destruct Hh as [<-|[<-|[]]]; reflexivity).
  rewrite (dispatch_str _ _ _ _ Hm Ht), Hattr.
  unfold try_clauses, bind. now rewrite Hcall.
Qed.

End DispatchCoverage.

Section DispatchCoverageExamples.

Import Template.

Lemma non_string_task_witness :
  In Analyzer.handle_message (handlers Demo.env)
  /\ ({[ "task" := PInt 5 ]} : gmap string pyval) !! "task" = Some (PInt 5)
  /\ truthy (PInt 5) = true
  /\ is_str (PInt 5) = false
  /\ Analyzer.handle_message Demo.analyzer {[ "task" := PInt 5 ]} []
     = (Raise (AttributeError "'int' object has no attribute 'replace'"), []).
Proof.
  assert (H1 : In Analyzer.handle_message (handlers Demo.env)) by (left; reflexivity).
  assert (H2 : ({[ "task" := PInt 5 ]} : gmap string pyval) !! "task" = Some (PInt 5))
    by reflexivity.
  assert (H3 : truthy (PInt 5) = true) by reflexivity.
  assert (H4 : is_str (PInt 5) = false) by reflexivity.
  exact (conj H1 (conj H2 (conj H3 (conj H4
           (non_string_task_raises Demo.env _ Demo.analyzer _ _ [] H1 H2 H3 H4))))).
Defined.

Lemma no_exception_witness :
  In Remediator.handle_message (handlers Demo.interrupted)
  /\ is_str (default PNone (propose_remediation_message !! "task")) = true
  /\ fst (Remediator.handle_message (Remediator.agent Demo.interrupted "remediator" 2)
            propose_remediation_message [])
     = Raise KeyboardInterrupt
  /\ isinstance_exn KeyboardInterrupt "Exception" = false.
Proof.
  assert (H1 : In Remediator.handle_message (handlers Demo.interrupted))
    by (right; right; left; reflexivity).
  assert (H2 : is_str (default PNone (propose_remediation_message !! "task")) = true)
    by reflexivity.
  pose (run := Remediator.handle_message (Remediator.agent Demo.interrupted "remediator" 2)
                 propose_remediation_message []).
  assert (H3 : run = (Raise KeyboardInterrupt, snd run)) by (vm_compute; reflexivity).
  split; [exact H1|]. split; [exact H2|].
  split; [change (fst run = Raise KeyboardInterrupt); now rewrite H3|].
  exact (no_exception_leaves_handle_message Demo.interrupted _ _ _ _ [] (snd run)
           H1 (or_intror H2) H3).
Defined.

Lemma missing_task_key_witness :
  In (Collector.handle_message Demo.env) (handlers Demo.env)
  /\ ({[ "raw_logs" := PStr "Killed" ]} : gmap string pyval) !! "task" = None
  /\ Collector.handle_message Demo.env Demo.collector {[ "raw_logs" := PStr "Killed" ]} []
     = (Ok (error_envelope "Missing required field: task"), []).
Proof.
  assert (H1 : In (Collector.handle_message Demo.env) (handlers Demo.env))
    by (right; left; reflexivity).
  assert (H2 : ({[ "raw_logs" := PStr "Killed" ]} : gmap string pyval) !! "task" = None)
    by reflexivity.
  exact (conj H1 (conj H2
           (missing_task_key_is_missing_field Demo.env _ Demo.collector _ [] H1 H2))).
Defined.

Lemma type_error_in_handler_witness :
  In Remediator.handle_message (handlers render_type_error)
  /\ getattr (Remediator.agent render_type_error "remediator" 2)
       (replace "propose-remediation" "-" "_")
     = Some (Remediator.propose_remediation_method render_type_error)
  /\ bind_arguments "GithubActionsErrorRemediatorAgent.propose_remediation"
       [ ("analysis_result", None); ("raw_logs", None); ("repository", None);
         ("branch", None); ("commit_sha", None) ]
       (delete "task" propose_remediation_message)
     = inr (delete "task" propose_remediation_message)
  /\ callees (snd (Remediator.handle_message
                     (Remediator.agent render_type_error "remediator" 2)
                     propose_remediation_message []))
     = [ "GithubActionsErrorRemediatorAgent.propose_remediation";
         "jinja2.get_template"; "jinja2.render" ]
  /\ fst (Remediator.handle_message (Remediator.agent render_type_error "remediator" 2)
            propose_remediation_message [])
     = Ok (error_envelope ("Invalid parameters for task propose-remediation: "
                             ++ "unsupported operand type(s)")).
Proof.
  assert (H1 : In Remediator.handle_message (handlers render_type_error))
    by (right; right; left; reflexivity).
  assert (H2 : propose_remediation_message !! "task" = Some (PStr "propose-remediation"))
    by reflexivity.
  assert (H3 : "propose-remediation" <> "") by discriminate.
  pose (body := fun args : gmap string pyval =>
                  memory_summary <- get_memory_summary render_type_error ;;
                  Remediator.propose_remediation render_type_error
                    (arg args "analysis_result") (arg args "raw_logs")
                    (arg args "repository") (arg args "branch")
                    (arg args "commit_sha") memory_summary).
  pose (params := [ ("analysis_result", @None pyval); ("raw_logs", None);
                    ("repository", None); ("branch", None); ("commit_sha", None) ]).
  pose (qualname := "GithubActionsErrorRemediatorAgent.propose_remediation").
  pose (args := delete "task" propose_remediation_message).
  assert (H4 : getattr (Remediator.agent render_type_error "remediator" 2)
                 (replace "propose-remediation" "-" "_")
               = Some (AMethod qualname params body)) by reflexivity.
  assert (H5 : bind_arguments qualname params (delete "task" propose_remediation_message)
               = inr args) by (vm_compute; reflexivity).
  pose (run := body args ([] ++ [Enter qualname args])%list).
  pose (e := TypeError "unsupported operand type(s)").
  assert (H6 : run = (Raise e, snd run)) by (vm_compute; reflexivity).
  assert (H7 : isinstance_exn e "TypeError" = true) by reflexivity.
  pose proof (type_error_in_handler_is_invalid_parameters render_type_error _ _ _ _ _ _ _
                _ e [] (snd run) H1 H2 H3 H4 H5 H6 H7) as H.
  split; [exact H1|]. split; [exact H4|]. split; [exact H5|].
  rewrite H. split; [|reflexivity].
  vm_compute. reflexivity.
Defined.

Lemma data_attribute_witness :
  In Analyzer.handle_message (handlers Demo.env)
  /\ ({[ "task" := PStr "config" ]} : gmap string pyval) !! "task" = Some (PStr "config")
  /\ "config" <> ""
  /\ getattr Demo.analyzer (replace "config" "-" "_") = Some (AData Analyzer.config)
  /\ Analyzer.handle_message Demo.analyzer {[ "task" := PStr "config" ]} []
     = (Ok (error_envelope ("Invalid parameters for task config: "
                              ++ "'dict' object is not callable")), []).
Proof.
  assert (H1 : In Analyzer.handle_message (handlers Demo.env)) by (left; reflexivity).
  assert (H2 : ({[ "task" := PStr "config" ]} : gmap string pyval) !! "task"
               = Some (PStr "config")) by reflexivity.
  assert (H3 : "config" <> "") by discriminate.
  assert (H4 : getattr Demo.analyzer (replace "config" "-" "_")
               = Some (AData Analyzer.config)) by reflexivity.
  exact (conj H1 (conj H2 (conj H3 (conj H4
           (data_attribute_is_not_callable Demo.env _ Demo.analyzer _ _ _ [] H1 H2 H3 H4))))).
Defined.

(** The keys of a mapping are the listed names when each name is a key and
    each item's key is listed. *)
Lemma keys_listed (m : gmap string pyval) (names : list string) :
  forallb (fun k => bool_decide (is_Some (m !! k))) names = true ->
  forallb (fun kv => existsb (String.eqb (fst kv)) names) (map_to_list m) = true ->
  forall k, is_Some (m !! k) <-> In k names.
Proof.
  intros Hnames Hitems k. split.
  - intros [v Hv]. apply elem_of_map_to_list, list_elem_of_In in Hv.
    rewrite forallb_forall in Hitems. apply Hitems in Hv. simpl in Hv.
    apply existsb_exists in Hv as [n [Hin Heq]].
    apply String.eqb_eq in Heq. now subst n.
  - intros Hin. rewrite forallb_forall in Hnames. apply Hnames in Hin.
    now apply bool_decide_eq_true in Hin.
Qed.

Lemma exact_parameters_witness :
  (forall k, is_Some (delete "task" propose_remediation_message !! k)
             <-> In k ["analysis_result"; "raw_logs"; "repository"; "branch"; "commit_sha"])
  /\ delete "task" propose_remediation_message !! "task" = None
  /\ Remediator.handle_message Demo.remediator propose_remediation_message []
     = try_clauses
         (result <- (memory_summary <- get_memory_summary Demo.env ;;
                     Remediator.propose_remediation Demo.env
                       (PDict [("root_cause", PStr "OOM")]) (PStr "Killed")
                       (PStr "octo/app") (PStr "main")
                       (PStr "0123456789abcdef0123456789abcdef01234567") memory_summary) ;;
          Remediator.finish result)
         (except_clauses "propose-remediation")
         [ Enter "GithubActionsErrorRemediatorAgent.propose_remediation"
             (delete "task" propose_remediation_message) ].
Proof.
  assert (H1 : In (Remediator.handle_message, Remediator.finish) (agents Demo.env))
    by (right; right; left; reflexivity).
  assert (H2 : propose_remediation_message !! "task" = Some (PStr "propose-remediation"))
    by reflexivity.
  assert (H3 : "propose-remediation" <> "") by discriminate.
  pose (body := fun args : gmap string pyval =>
                  memory_summary <- get_memory_summary Demo.env ;;
                  Remediator.propose_remediation Demo.env
                    (arg args "analysis_result") (arg args "raw_logs")
                    (arg args "repository") (arg args "branch")
                    (arg args "commit_sha") memory_summary).
  pose (params := [ ("analysis_result", @None pyval); ("raw_logs", None);
                    ("repository", None); ("branch", None); ("commit_sha", None) ]).
  assert (H4 : getattr Demo.remediator (replace "propose-remediation" "-" "_")
               = Some (AMethod "GithubActionsErrorRemediatorAgent.propose_remediation"
                         params body)) by reflexivity.
  assert (H5 : Forall (fun p : string * option pyval => snd p = None) params)
    by (repeat constructor).
  assert (H6 : forall k, is_Some (delete "task" propose_remediation_message !! k)
                         <-> In k (List.map fst params))
    by (apply keys_listed; vm_compute; reflexivity).
  split; [exact H6|].
  exact (exact_parameters_reach_handler Demo.env _ _ Demo.remediator _ _ _ _ body []
           H1 H2 H3 H4 H5 H6).
Defined.

Lemma task_spelling_witness :
  "propose-remediation" <> "propose_remediation"
  /\ replace "propose-remediation" "-" "_" = replace "propose_remediation" "-" "_"
  /\ fst (Remediator.handle_message Demo.remediator
            (<["task" := PStr "propose-remediation"]> remediation_parameters) [])
     = Ok (PDict Remediator.propose_remediation_defaults)
  /\ fst (Remediator.handle_message Demo.remediator
            (<["task" := PStr "propose_remediation"]> remediation_parameters) [])
     = Ok (PDict Remediator.propose_remediation_defaults).
Proof.
  assert (H0 : "propose-remediation" <> "propose_remediation") by discriminate.
  assert (H1 : In Remediator.handle_message (handlers Demo.env))
    by (right; right; left; reflexivity).
  assert (H2 : "propose-remediation" <> "") by discriminate.
  assert (H3 : "propose_remediation" <> "") by discriminate.
  assert (H4 : replace "propose-remediation" "-" "_" = replace "propose_remediation" "-" "_")
    by (vm_compute; reflexivity).
  pose (v := PDict Remediator.propose_remediation_defaults).
  pose (run := Remediator.handle_message Demo.remediator
                 (<["task" := PStr "propose-remediation"]> remediation_parameters) []).
  assert (H5 : run = (Ok v, snd run)) by (vm_compute; reflexivity).
  assert (H6 : has_key "error" v = false) by reflexivity.
  pose proof (proj2 (task_spelling_does_not_matter Demo.env) _ Demo.remediator
                remediation_parameters _ _ v [] (snd run) H1 H2 H3 H4 H5 H6) as H.
  split; [exact H0|]. split; [exact H4|].
  split; [change (fst run = Ok v); now rewrite H5|].
  now rewrite H.
Defined.

Lemma collector_reply_witness :
  fst (Collector.handle_message Demo.env Demo.collector extract_build_info_message [])
  = Ok (PStr (Demo.dumps_text (PDict Collector.extract_build_info_defaults)))
  /\ (is_str (PStr (Demo.dumps_text (PDict Collector.extract_build_info_defaults))) = true
      \/ exists text,
           PStr (Demo.dumps_text (PDict Collector.extract_build_info_defaults))
           = error_envelope text).
Proof.
  pose (run := Collector.handle_message Demo.env Demo.collector
                 extract_build_info_message []).
  pose (v := PStr (Demo.dumps_text (PDict Collector.extract_build_info_defaults))).
  assert (H1 : run = (Ok v, snd run)) by (vm_compute; reflexivity).
  split; [change (fst run = Ok v); now rewrite H1|].
  exact (collector_reply_is_text_or_error Demo.env Demo.collector _ v [] (snd run) H1).
Defined.

Lemma handler_result_witness :
  In Analyzer.handle_message [Analyzer.handle_message; Remediator.handle_message]
  /\ has_model_dump PNone = false
  /\ fst (Analyzer.handle_message Demo.analyzer {[ "task" := PStr "setup-logging" ]} [])
     = Ok PNone.
Proof.
  assert (H1 : In Analyzer.handle_message
                 [Analyzer.handle_message; Remediator.handle_message])
    by (left; reflexivity).
  assert (H2 : ({[ "task" := PStr "setup-logging" ]} : gmap string pyval) !! "task"
               = Some (PStr "setup-logging")) by reflexivity.
  assert (H3 : "setup-logging" <> "") by discriminate.
  destruct (getattr Demo.analyzer (replace "setup-logging" "-" "_")) as [method|] eqn:H4;
    [|discriminate H4].
  pose (run := call method (delete "task" ({[ "task" := PStr "setup-logging" ]}
                                           : gmap string pyval)) []).
  assert (H5 : run = (Ok PNone, snd run)).
  { vm_compute in H4. injection H4 as <-. vm_compute. reflexivity. }
  split; [exact H1|]. split; [reflexivity|].
  now rewrite (handler_result_is_the_reply _ Demo.analyzer _ _ method PNone []
                 (snd run) H1 H2 H3 H4 H5).
Defined.

End DispatchCoverageExamples.

(** ** The parse functions: what they raise and what they call *)

Section ParseCoverage.

Import Template.

Variable E : Env.

(** The second step of a parse function: the call to dacp's parser under
    [except Exception]. *)
Lemma reconcile_step (cls : model_class) (defaults : list (string * pyval)) (v : pyval)
    (tr : trace) :
  try_except
    (ext "dacp.parse_with_fallback" [v; PStr (cls_name cls); PDict defaults]
       (parse_with_fallback E v cls defaults))
    "Exception"
    (fun e => raise (ValueError ("Error parsing response with DACP parser: " ++ exn_msg e)))
    tr
  = (match parse_with_fallback E v cls defaults with
     | Ok r => Ok r
     | Raise e =>
         if isinstance_exn e "Exception"
         then Raise (ValueError ("Error parsing response with DACP parser: " ++ exn_msg e))
         else Raise e
     end,
     (tr ++ [Ext "dacp.parse_with_fallback" [v; PStr (cls_name cls); PDict defaults]])%list).
Proof.
  unfold try_except, ext, raise.
  destruct (parse_with_fallback E v cls defaults) as [r|e]; [reflexivity|].
  now destruct (isinstance_exn e "Exception").
Qed.

(** A response that is neither an instance of the model nor a string goes
    to dacp's parser as it is. *)
Lemma parse_output_value (cls : model_class) (defaults : list (string * pyval))
    (v : pyval) (tr : trace) :
  isinstance v cls = false ->
  is_str v = false ->
  parse_output E cls defaults v tr
  = try_except
      (ext "dacp.parse_with_fallback" [v; PStr (cls_name cls); PDict defaults]
         (parse_with_fallback E v cls defaults))
      "Exception"
      (fun e => raise (ValueError ("Error parsing response with DACP parser: " ++ exn_msg e)))
      tr.
Proof.
  intros Hcls Hstr. unfold parse_output. rewrite Hcls.
  destruct v; try discriminate Hstr; reflexivity.
Qed.

(** A string response is decoded first. *)
Lemma parse_output_text (cls : model_class) (defaults : list (string * pyval))
    (s : string) (tr : trace) :
  parse_output E cls defaults (PStr s) tr
  = match json_loads E s with
    | Ok v =>
        try_except
          (ext "dacp.parse_with_fallback" [v; PStr (cls_name cls); PDict defaults]
             (parse_with_fallback E v cls defaults))
          "Exception"
          (fun e => raise (ValueError ("Error parsing response with DACP parser: "
                                         ++ exn_msg e)))
          (tr ++ [Ext "json.loads" [PStr s]])%list
    | Raise e =>
        (Raise (if isinstance_exn e "JSONDecodeError"
                then ValueError ("Failed to parse JSON response: " ++ exn_msg e) else e),
         (tr ++ [Ext "json.loads" [PStr s]])%list)
    end.
Proof.
  unfold parse_output. change (isinstance (PStr s) cls) with false. cbv iota.
  unfold bind, try_except, ext, raise.
  destruct (json_loads E s) as [v|e]; [reflexivity|].
  now destruct (isinstance_exn e "JSONDecodeError").
Qed.

(** X10. What a parse function raises is a ValueError with one of its two
    messages, unless [json.loads] raised something that is no
    JSONDecodeError or dacp's parser raised something that is no
    [Exception]: those two leave the parse function as they are. *)
Theorem parse_raises_value_error_or_passes_on
    (cls : model_class) (parse : pyval -> M pyval) (response : pyval) (e : exn)
    (tr tr' : trace) :
  In (cls, parse) (parse_functions E) ->
  parse response tr = (Raise e, tr') ->
  (exists msg, e = ValueError ("Failed to parse JSON response: " ++ msg))
  \/ (exists msg, e = ValueError ("Error parsing response with DACP parser: " ++ msg))
  \/ (exists s, response = PStr s /\ json_loads E s = Raise e
                /\ isinstance_exn e "JSONDecodeError" = false)
  \/ (exists v defaults, parse_with_fallback E v cls defaults = Raise e
                         /\ isinstance_exn e "Exception" = false).
Proof.
  intros Hin. apply parse_functions_template in Hin as [defaults ->].
  assert (Hstep : forall v tr0,
            try_except
              (ext "dacp.parse_with_fallback" [v; PStr (cls_name cls); PDict defaults]
                 (parse_with_fallback E v cls defaults))
              "Exception"
              (fun e => raise (ValueError ("Error parsing response with DACP parser: "
                                             ++ exn_msg e)))
              tr0 = (Raise e, tr') ->
            (exists msg, e = ValueError ("Error parsing response with DACP parser: " ++ msg))
            \/ (exists v defaults, parse_with_fallback E v cls defaults = Raise e
                                   /\ isinstance_exn e "Exception" = false)).
  { intros v tr0. rewrite reconcile_step.
    destruct (parse_with_fallback E v cls defaults) as [r|e0] eqn:Hp; [discriminate|].
    destruct (isinstance_exn e0 "Exception") eqn:He0; intros [= <- _]; eauto. }
  destruct (isinstance response cls) eqn:Hcls.
  { unfold parse_output. rewrite Hcls. discriminate. }
  destruct (is_str response) eqn:Hstr.
  - destruct response; try discriminate Hstr. rewrite parse_output_text.
    destruct (json_loads E s) as [v|e0] eqn:Hl.
    + intros Hrun. apply Hstep in Hrun. tauto.
    + destruct (isinstance_exn e0 "JSONDecodeError") eqn:He0; intros [= <- _].
      * left. eauto.
      * right. right. left. eauto.
  - rewrite (parse_output_value _ _ _ _ Hcls Hstr). intros Hrun.
    apply Hstep in Hrun. tauto.
Qed.

(** X11. A string response is handled as the value [json.loads] makes of
    it, after the one call to [json.loads], when that value is no string
    and no instance of the model: the parse function does not decode
    twice and does not test the decoded value for the model. *)
Theorem decoded_text_is_parsed_as_value
    (cls : model_class) (parse : pyval -> M pyval) (s : string) (v : pyval) (tr : trace) :
  In (cls, parse) (parse_functions E) ->
  json_loads E s = Ok v ->
  is_str v = false ->
  isinstance v cls = false ->
  parse (PStr s) tr = parse v (tr ++ [Ext "json.loads" [PStr s]])%list.
Proof.
  intros Hin Hl Hstr Hcls. apply parse_functions_template in Hin as [defaults ->].
  now rewrite parse_output_text, Hl, (parse_output_value _ _ _ _ Hcls Hstr).
Qed.

(** X12. A parse function calls [json.loads] at most once, for a string
    response only, and dacp's parser at most once, after it: whatever the
    response and the outcome, the calls it adds to the trace are none,
    [json.loads], dacp's parser, or the two in this order. *)
Theorem parse_calls_in_order
    (cls : model_class) (parse : pyval -> M pyval) (response : pyval) (tr : trace) :
  In (cls, parse) (parse_functions E) ->
  exists evs,
    snd (parse response tr) = (tr ++ evs)%list
    /\ In (callees evs)
         [ []; ["json.loads"]; ["dacp.parse_with_fallback"];
           ["json.loads"; "dacp.parse_with_fallback"] ]
    /\ (In "json.loads" (callees evs) -> is_str response = true).
Proof.
  intros Hin. apply parse_functions_template in Hin as [defaults ->].
  destruct (isinstance response cls) eqn:Hcls.
  { exists []. unfold parse_output. rewrite Hcls. simpl. rewrite app_nil_r.
    split; [reflexivity|]. split; [now left|]. intros []. }
  destruct (is_str response) eqn:Hstr.
  - destruct response; try discriminate Hstr. rewrite parse_output_text.
    destruct (json_loads E s) as [v|e0].
    + rewrite reconcile_step. cbn [snd]. rewrite <- app_assoc.
      eexists. split; [reflexivity|]. split; [|reflexivity].
      right. right. right. left. reflexivity.
    + eexists. split; [reflexivity|]. split; [|reflexivity].
      right. left. reflexivity.
  - rewrite (parse_output_value _ _ _ _ Hcls Hstr), reconcile_step.
    eexists. split; [reflexivity|]. split.
    + right. right. left. reflexivity.
    + intros [H|[]]. discriminate H.
Qed.

End ParseCoverage.

Section ParseCoverageExamples.

Lemma parse_raises_witness :
  In (Propose_RemediationOutput, Remediator.parse_propose_remediation_output Demo.env)
    (parse_functions Demo.env)
  /\ fst (Remediator.parse_propose_remediation_output Demo.env (PStr "not json") [])
     = Raise (ValueError ("Failed to parse JSON response: "
                            ++ "Expecting value: line 1 column 1 (char 0)"))
  /\ ((exists msg, ValueError ("Failed to parse JSON response: "
                                ++ "Expecting value: line 1 column 1 (char 0)")
                   = ValueError ("Failed to parse JSON response: " ++ msg))
      \/ (exists msg, ValueError ("Failed to parse JSON response: "
                                   ++ "Expecting value: line 1 column 1 (char 0)")
                      = ValueError ("Error parsing response with DACP parser: " ++ msg))
      \/ (exists s, PStr "not json" = PStr s
                    /\ json_loads Demo.env s
                       = Raise (ValueError ("Failed to parse JSON response: "
                                              ++ "Expecting value: line 1 column 1 (char 0)"))
                    /\ isinstance_exn
                         (ValueError ("Failed to parse JSON response: "
                                        ++ "Expecting value: line 1 column 1 (char 0)"))
                         "JSONDecodeError" = false)
      \/ (exists v defaults,
             parse_with_fallback Demo.env v Propose_RemediationOutput defaults
             = Raise (ValueError ("Failed to parse JSON response: "
                                    ++ "Expecting value: line 1 column 1 (char 0)"))
             /\ isinstance_exn
                  (ValueError ("Failed to parse JSON response: "
                                 ++ "Expecting value: line 1 column 1 (char 0)"))
                  "Exception" = false)).
Proof.
  assert (H1 : In (Propose_RemediationOutput,
                   Remediator.parse_propose_remediation_output Demo.env)
                 (parse_functions Demo.env)) by (do 5 right; left; reflexivity).
  pose (run := Remediator.parse_propose_remediation_output Demo.env (PStr "not json") []).
  pose (e := ValueError ("Failed to parse JSON response: "
                           ++ "Expecting value: line 1 column 1 (char 0)")).
  assert (H2 : run = (Raise e, snd run)) by (vm_compute; reflexivity).
  split; [exact H1|]. split; [change (fst run = Raise e); now rewrite H2|].
  exact (parse_raises_value_error_or_passes_on Demo.env _ _ _ e [] (snd run) H1 H2).
Defined.

Lemma decoded_text_witness :
  In (Propose_RemediationOutput, Remediator.parse_propose_remediation_output Demo.env)
    (parse_functions Demo.env)
  /\ json_loads Demo.env "{}" = Ok (PDict [])
  /\ is_str (PDict []) = false
  /\ isinstance (PDict []) Propose_RemediationOutput = false
  /\ Remediator.parse_propose_remediation_output Demo.env (PStr "{}") []
     = Remediator.parse_propose_remediation_output Demo.env (PDict [])
         [Ext "json.loads" [PStr "{}"]].
Proof.
  assert (H1 : In (Propose_RemediationOutput,
                   Remediator.parse_propose_remediation_output Demo.env)
                 (parse_functions Demo.env)) by (do 5 right; left; reflexivity).
  assert (H2 : json_loads Demo.env "{}" = Ok (PDict [])) by reflexivity.
  assert (H3 : is_str (PDict []) = false) by reflexivity.
  assert (H4 : isinstance (PDict []) Propose_RemediationOutput = false) by reflexivity.
  exact (conj H1 (conj H2 (conj H3 (conj H4
           (decoded_text_is_parsed_as_value Demo.env _ _ _ _ [] H1 H2 H3 H4))))).
Defined.

Lemma parse_calls_witness :
  In (Collect_ErrorsOutput, Collector.parse_collect_errors_output Demo.env)
    (parse_functions Demo.env)
  /\ exists evs,
       snd (Collector.parse_collect_errors_output Demo.env (PStr "{}") []) = ([] ++ evs)%list
       /\ In (callees evs)
            [ []; ["json.loads"]; ["dacp.parse_with_fallback"];
              ["json.loads"; "dacp.parse_with_fallback"] ]
       /\ (In "json.loads" (callees evs) -> is_str (PStr "{}") = true).
Proof.
  assert (H1 : In (Collect_ErrorsOutput, Collector.parse_collect_errors_output Demo.env)
                 (parse_functions Demo.env)) by (do 3 right; left; reflexivity).
  exact (conj H1 (parse_calls_in_order Demo.env _ _ (PStr "{}") [] H1)).
Defined.

End ParseCoverageExamples.

(** ** The task functions: template, prompt, model, parse *)

Section TaskCoverage.

Import Template.

Variable E : Env.

(** The memory configuration of every task function is disabled, so the
    prompt is rendered with the empty memory summary. *)
Lemma run_task_memory (template_name output_format : string)
    (input_dict : list (string * pyval)) (memory_summary : pyval)
    (intelligence_config : list (string * pyval)) (parse : pyval -> M pyval) :
  run_task E template_name output_format input_dict memory_summary intelligence_config parse
  = run_task E template_name output_format input_dict (PStr "") intelligence_config parse.
Proof. reflexivity. Qed.

(** [run_task] after the template is loaded. *)
Lemma run_task_loaded (template_name output_format : string)
    (input_dict : list (string * pyval)) (memory_summary : pyval)
    (intelligence_config : list (string * pyval)) (parse : pyval -> M pyval)
    (template : string) (tr tr1 : trace) :
  load_template E template_name tr = (Ok template, tr1) ->
  run_task E template_name output_format input_dict memory_summary intelligence_config
    parse tr
  = (prompt <- ext "jinja2.render"
                 [PStr template; PDict (render_context output_format input_dict)]
                 (render E template (render_context output_format input_dict)) ;;
     result <- ext "dacp.invoke_intelligence" [PStr prompt; PDict intelligence_config]
                 (invoke_intelligence E prompt intelligence_config) ;;
     parse result) tr1.
Proof.
  intros Hload. unfold run_task. unfold bind at 1. now rewrite Hload.
Qed.

(** X13. No task function uses the memory summary it is given: what runs
    under the decorator is the same whatever the summary, which reaches
    the decorator only, as the last argument of the call. *)
Theorem memory_summary_is_not_used
    (name : string) (f : list pyval -> pyval -> M pyval) (args : list pyval) :
  In (name, f) (task_functions E) ->
  exists contract inputs body,
    forall memory_summary,
      f args memory_summary
      = behavioural_contract E contract
          (inputs ++ [("memory_summary", memory_summary)])%list body.
Proof.
  intros [[= <- <-]|[[= <- <-]|[[= <- <-]|[[= <- <-]|[[= <- <-]|[[= <- <-]|[]]]]]]];
    eexists _, _, (run_task E _ _ _ (PStr "") _ _); intros memory_summary;
    reflexivity.
Qed.

(** X14. An exception of the template loader that is no FileNotFoundError
    leaves the task function as it is, after that one call: the default
    template is not tried, nothing is rendered and the model is not
    called.  jinja2 reports a missing template with TemplateNotFound,
    which is no FileNotFoundError. *)
Theorem template_error_is_not_recovered
    (template_name output_format : string) (input_dict : list (string * pyval))
    (memory_summary : pyval) (intelligence_config : list (string * pyval))
    (parse : pyval -> M pyval) (e : exn) (tr : trace) :
  get_template E template_name = Raise e ->
  isinstance_exn e "FileNotFoundError" = false ->
  run_task E template_name output_format input_dict memory_summary intelligence_config
    parse tr
  = (Raise e, (tr ++ [Ext "jinja2.get_template" [PStr template_name]])%list).
Proof.
  intros Hget Hcls. unfold run_task, load_template, bind at 1, try_except, ext at 1.
  now rewrite Hget, Hcls.
Qed.

(** X15. When the loader raises FileNotFoundError for the task's template,
    a warning is logged and the default template [agent_prompt.jinja2] is
    asked for; the outcome of that second call, a template or an
    exception, is the outcome of the loading. *)
Theorem missing_template_falls_back (template_name : string) (e : exn) (tr : trace) :
  get_template E template_name = Raise e ->
  isinstance_exn e "FileNotFoundError" = true ->
  load_template E template_name tr
  = (get_template E "agent_prompt.jinja2",
     (tr ++ [ Ext "jinja2.get_template" [PStr template_name];
              Ext "log.warning"
                [PStr "Task-specific prompt template not found, using default template"];
              Ext "jinja2.get_template" [PStr "agent_prompt.jinja2"] ])%list).
Proof.
  intros Hget Hcls. unfold load_template, try_except, bind, ext.
  rewrite Hget, Hcls. now rewrite <- !app_assoc.
Qed.

(** X16. When rendering the prompt fails, the task function raises what
    the renderer raised and the model is not called. *)
Theorem render_failure_stops_the_task
    (template_name output_format : string) (input_dict : list (string * pyval))
    (memory_summary : pyval) (intelligence_config : list (string * pyval))
    (parse : pyval -> M pyval) (template : string) (e : exn) (tr tr1 : trace) :
  load_template E template_name tr = (Ok template, tr1) ->
  render E template (render_context output_format input_dict) = Raise e ->
  run_task E template_name output_format input_dict memory_summary intelligence_config
    parse tr
  = (Raise e,
     (tr1 ++ [Ext "jinja2.render"
                [PStr template; PDict (render_context output_format input_dict)]])%list)
  /\ ~ In "dacp.invoke_intelligence"
         (callees [Ext "jinja2.render"
                     [PStr template; PDict (render_context output_format input_dict)]]).
Proof.
  intros Hload Hrender. split.
  - rewrite (run_task_loaded _ _ _ _ _ _ _ _ _ Hload).
    unfold bind at 1, ext at 1. now rewrite Hrender.
  - simpl. intros [H|[]]. discriminate H.
Qed.

(** X17. What the model returns goes to the parse function as it is, after
    the calls to the renderer and to the model; what the model raises
    leaves the task function and nothing is parsed. *)
Theorem model_reply_goes_to_parse
    (template_name output_format : string) (input_dict : list (string * pyval))
    (memory_summary : pyval) (intelligence_config : list (string * pyval))
    (parse : pyval -> M pyval) (template prompt : string) (tr tr1 : trace) :
  load_template E template_name tr = (Ok template, tr1) ->
  render E template (render_context output_format input_dict) = Ok prompt ->
  run_task E template_name output_format input_dict memory_summary intelligence_config
    parse tr
  = match invoke_intelligence E prompt intelligence_config with
    | Ok result =>
        parse result
          (tr1 ++ [ Ext "jinja2.render"
                      [PStr template; PDict (render_context output_format input_dict)];
                    Ext "dacp.invoke_intelligence"
                      [PStr prompt; PDict intelligence_config] ])%list
    | Raise e =>
        (Raise e,
         (tr1 ++ [ Ext "jinja2.render"
                     [PStr template; PDict (render_context output_format input_dict)];
                   Ext "dacp.invoke_intelligence"
                     [PStr prompt; PDict intelligence_config] ])%list)
    end.
Proof.
  intros Hload Hrender. rewrite (run_task_loaded _ _ _ _ _ _ _ _ _ Hload).
  unfold bind, ext. rewrite Hrender, <- app_assoc.
  now destruct (invoke_intelligence E prompt intelligence_config).
Qed.

(** X18. For the configuration of each agent, [setup_logging] comes to
    this: the level, the style and the log file are those of the
    environment variables where they are set and those of the
    configuration otherwise, the directory of the log file is made unless
    the log file is the empty string, dacp's logging is set up with
    timestamps on, and the result is [None]. *)
Theorem setup_logging_of_agent_config
    (config : pyval) (log_file_variable log_file_default : string) (tr : trace) :
  In (config, (log_file_variable, log_file_default)) logging_setups ->
  setup_logging_body E config tr
  = configure_logging E log_file_variable log_file_default tr.
Proof.
  intros [[= <- <- <-]|[[= <- <- <-]|[[= <- <- <-]|[]]]];
    unfold setup_logging_body, configure_logging, os_getenv;
    generalize (getenv E) (mkdir_parent E) (setup_dacp_logging E);
    intros variables mkdir setup; vm_compute;
    repeat match goal with
           | |- context [variables ?n] => destruct (variables n) as [[|? ?]|]
           end; reflexivity.
Qed.

End TaskCoverage.

Section TaskCoverageExamples.

Import Template.

Lemma memory_summary_witness :
  In ("extract_build_info",
      fun args m => Collector.extract_build_info Demo.env (nth 0 args PNone)
                      (nth 1 args PNone) m)
    (task_functions Demo.env)
  /\ exists contract inputs body,
       forall memory_summary,
         Collector.extract_build_info Demo.env (PStr "npm ERR!") (PStr "npm") memory_summary
         = behavioural_contract Demo.env contract
             (inputs ++ [("memory_summary", memory_summary)])%list body.
Proof.
  assert (H1 : In ("extract_build_info",
                   fun args m => Collector.extract_build_info Demo.env (nth 0 args PNone)
                                   (nth 1 args PNone) m)
                 (task_functions Demo.env)) by (do 4 right; left; reflexivity).
  exact (conj H1 (memory_summary_is_not_used Demo.env _ _ [PStr "npm ERR!"; PStr "npm"] H1)).
Defined.

Lemma template_error_witness :
  get_template template_not_found "propose_remediation.jinja2"
  = Raise (TemplateNotFound "propose_remediation.jinja2")
  /\ isinstance_exn (TemplateNotFound "propose_remediation.jinja2") "FileNotFoundError"
     = false
  /\ run_task template_not_found "propose_remediation.jinja2"
       Remediator.propose_remediation_output_format [("raw_logs", PStr "Killed")]
       (PStr "") Remediator.propose_remediation_intelligence_config
       (Remediator.parse_propose_remediation_output template_not_found) []
     = (Raise (TemplateNotFound "propose_remediation.jinja2"),
        [Ext "jinja2.get_template" [PStr "propose_remediation.jinja2"]]).
Proof.
  assert (H1 : get_template template_not_found "propose_remediation.jinja2"
               = Raise (TemplateNotFound "propose_remediation.jinja2")) by reflexivity.
  assert (H2 : isinstance_exn (TemplateNotFound "propose_remediation.jinja2")
                 "FileNotFoundError" = false) by reflexivity.
  exact (conj H1 (conj H2
           (template_error_is_not_recovered template_not_found _ _ _ _ _ _ _ [] H1 H2))).
Defined.

Lemma missing_template_witness :
  get_template default_template_only "collect_errors.jinja2"
  = Raise (FileNotFoundError "collect_errors.jinja2")
  /\ isinstance_exn (FileNotFoundError "collect_errors.jinja2") "FileNotFoundError" = true
  /\ load_template default_template_only "collect_errors.jinja2" []
     = (Ok "agent_prompt.jinja2",
        [ Ext "jinja2.get_template" [PStr "collect_errors.jinja2"];
          Ext "log.warning"
            [PStr "Task-specific prompt template not found, using default template"];
          Ext "jinja2.get_template" [PStr "agent_prompt.jinja2"] ]).
Proof.
  assert (H1 : get_template default_template_only "collect_errors.jinja2"
               = Raise (FileNotFoundError "collect_errors.jinja2")) by reflexivity.
  assert (H2 : isinstance_exn (FileNotFoundError "collect_errors.jinja2")
                 "FileNotFoundError" = true) by reflexivity.
  exact (conj H1 (conj H2
           (missing_template_falls_back default_template_only _ _ [] H1 H2))).
Defined.

Lemma render_failure_witness :
  load_template render_type_error "propose_remediation.jinja2" []
  = (Ok "propose_remediation.jinja2",
     [Ext "jinja2.get_template" [PStr "propose_remediation.jinja2"]])
  /\ render render_type_error "propose_remediation.jinja2"
       (render_context Remediator.propose_remediation_output_format
          [("raw_logs", PStr "Killed")])
     = Raise (TypeError "unsupported operand type(s)")
  /\ callees (snd (run_task render_type_error "propose_remediation.jinja2"
                     Remediator.propose_remediation_output_format
                     [("raw_logs", PStr "Killed")] (PStr "")
                     Remediator.propose_remediation_intelligence_config
                     (Remediator.parse_propose_remediation_output render_type_error) []))
     = ["jinja2.get_template"; "jinja2.render"].
Proof.
  assert (H1 : load_template render_type_error "propose_remediation.jinja2" []
               = (Ok "propose_remediation.jinja2",
                  [Ext "jinja2.get_template" [PStr "propose_remediation.jinja2"]]))
    by reflexivity.
  assert (H2 : render render_type_error "propose_remediation.jinja2"
                 (render_context Remediator.propose_remediation_output_format
                    [("raw_logs", PStr "Killed")])
               = Raise (TypeError "unsupported operand type(s)")) by reflexivity.
  split; [exact H1|]. split; [exact H2|].
  now rewrite (proj1 (render_failure_stops_the_task render_type_error _ _ _ (PStr "")
                        Remediator.propose_remediation_intelligence_config
                        (Remediator.parse_propose_remediation_output render_type_error)
                        _ _ [] _ H1 H2)).
Defined.

Lemma model_reply_witness :
  load_template Demo.interrupted "propose_remediation.jinja2" []
  = (Ok "propose_remediation.jinja2",
     [Ext "jinja2.get_template" [PStr "propose_remediation.jinja2"]])
  /\ render Demo.interrupted "propose_remediation.jinja2"
       (render_context Remediator.propose_remediation_output_format
          [("raw_logs", PStr "Killed")])
     = Ok "prompt of propose_remediation.jinja2"
  /\ callees (snd (run_task Demo.interrupted "propose_remediation.jinja2"
                     Remediator.propose_remediation_output_format
                     [("raw_logs", PStr "Killed")] (PStr "")
                     Remediator.propose_remediation_intelligence_config
                     (Remediator.parse_propose_remediation_output Demo.interrupted) []))
     = ["jinja2.get_template"; "jinja2.render"; "dacp.invoke_intelligence"]
  /\ fst (run_task Demo.interrupted "propose_remediation.jinja2"
            Remediator.propose_remediation_output_format
            [("raw_logs", PStr "Killed")] (PStr "")
            Remediator.propose_remediation_intelligence_config
            (Remediator.parse_propose_remediation_output Demo.interrupted) [])
     = Raise KeyboardInterrupt.
Proof.
  assert (H1 : load_template Demo.interrupted "propose_remediation.jinja2" []
               = (Ok "propose_remediation.jinja2",
                  [Ext "jinja2.get_template" [PStr "propose_remediation.jinja2"]]))
    by reflexivity.
  assert (H2 : render Demo.interrupted "propose_remediation.jinja2"
                 (render_context Remediator.propose_remediation_output_format
                    [("raw_logs", PStr "Killed")])
               = Ok "prompt of propose_remediation.jinja2") by reflexivity.
  split; [exact H1|]. split; [exact H2|].
  rewrite (model_reply_goes_to_parse Demo.interrupted _ _ _ (PStr "")
             Remediator.propose_remediation_intelligence_config
             (Remediator.parse_propose_remediation_output Demo.interrupted)
             _ _ [] _ H1 H2).
  split; reflexivity.
Defined.

Lemma setup_logging_witness :
  In (Analyzer.config, ("DACP_LOG_FILE_ANALYZER", "./logs/github-actions-analyzer.log"))
    logging_setups
  /\ setup_logging_body quiet_environment Analyzer.config []
     = configure_logging quiet_environment "DACP_LOG_FILE_ANALYZER"
         "./logs/github-actions-analyzer.log" []
  /\ configure_logging quiet_environment "DACP_LOG_FILE_ANALYZER"
       "./logs/github-actions-analyzer.log" []
     = (Ok PNone,
        [ Ext "dacp.setup_dacp_logging"
            [PDict [ ("level", PStr "DEBUG");
                     ("format_style", PStr "emoji");
                     ("include_timestamp", PBool true);
                     ("log_file", PStr "") ]] ]).
Proof.
  assert (H1 : In (Analyzer.config,
                   ("DACP_LOG_FILE_ANALYZER", "./logs/github-actions-analyzer.log"))
                 logging_setups) by (left; reflexivity).
  split; [exact H1|]. split; [|reflexivity].
  exact (setup_logging_of_agent_config quiet_environment _ _ _ [] H1).
Defined.

End TaskCoverageExamples.
